(** * The real-time chat fan-out path of [users/]

    A shallow embedding of [users/consumers.py] (the WebSocket consumer),
    [users/signals.py] (the [post_save] receiver), [users/models.py] (the
    [Message] table), the chat page of [users/views.py] and the channel
    layer setting of [core/settings.py], with the properties of the chat
    path stated over it.

    Python values are modelled as the code has them: a [str] is a sequence
    of code points, the object decoded from a frame is a [json] value, a
    [dict] is a finite map.  Exceptions are explicit: a computation of type
    [M A] reads and updates the [World] and either returns or raises. *)

From stdpp Require Import gmap strings list fin_maps fin_sets sorting.

Set Default Proof Using "Type".
#[local] Set Warnings "-clear-no-such-hyp".
Open Scope Z_scope.

(** ** Python values *)

(** A Python [str]: a sequence of Unicode code points. *)
Abbreviation str := (list N).

(** A literal of the source text, as a [str]. *)
Definition lit (s : string) : str :=
  (λ a, Ascii.N_of_ascii a) <$> String.list_ascii_of_string s.

(** What [json.loads] yields: [None], [bool], [int], [float], [str], [list]
    or [dict].  The numeric value of a float plays no part in the chat path;
    it is kept as the lexeme it was read from. *)
#[local] Unset Elimination Schemes.
Inductive json : Type :=
  | JNull
  | JBool (b : bool)
  | JInt (n : Z)
  | JFloat (lexeme : str)
  | JStr (s : str)
  | JList (l : list json)
  | JDict (d : gmap str json).
#[local] Set Elimination Schemes.

(** The exception classes that occur on the chat path. *)
Inductive exn : Type :=
  | JSONDecodeError
  | KeyError
  | AttributeError
  | ValueError
  | TypeError
  | DoesNotExist        (* User.DoesNotExist *)
  | OperationalError    (* django.db: the store refused the statement *)
  | ConnectionClosed.   (* writing to a transport that is gone *)

Global Instance exn_eq_dec : EqDecision exn.
Proof. solve_decision. Defined.

(** The outcome of a call: a returned value or a raised exception. *)
Inductive res (A : Type) : Type :=
  | Ret (a : A)
  | Raise (e : exn).
Arguments Ret {A} a.
Arguments Raise {A} e.

(** [str.isspace] on one code point: the code points CPython classifies as
    whitespace, which are the ones [str.strip()] removes. *)
Definition isspace (c : N) : bool :=
  (((9 <=? c) && (c <=? 13)) || ((28 <=? c) && (c <=? 32))
   || (c =? 133) || (c =? 160) || (c =? 5760)
   || ((8192 <=? c) && (c <=? 8202))
   || (c =? 8232) || (c =? 8233) || (c =? 8239) || (c =? 8287)
   || (c =? 12288))%N.

Fixpoint lstrip (s : str) : str :=
  match s with
  | [] => []
  | c :: s' => if isspace c then lstrip s' else s
  end.

Definition rstrip (s : str) : str := reverse (lstrip (reverse s)).

(** [s.strip()] *)
Definition strip (s : str) : str := rstrip (lstrip s).

(** [obj.strip()]: only a [str] has the method. *)
Definition py_strip (v : json) : res str :=
  match v with
  | JStr s => Ret (strip s)
  | _ => Raise AttributeError
  end.

(** [obj.get(key, default)]: only a [dict] has the method; on a [dict] it
    never raises. *)
Definition py_get (v : json) (key : str) (dflt : json) : res json :=
  match v with
  | JDict d => Ret (default dflt (d !! key))
  | _ => Raise AttributeError
  end.

(** ** The world the chat path runs in *)

(** A user object ([models.User]) as the ORM loads it; the chat path reads
    its primary key and its [email]. *)
Record User : Type := mkUser { pk : Z; email : str }.

(** A row of the message table ([models.Message]).  [sender] is a foreign
    key declared without [null=True]: the column holds a user key, never a
    null. *)
Record Message : Type :=
  mkMessage { sender : Z; content : str; timestamp : N }.

(** The payload handed to [group_send]:
    [{'type': ..., 'message': ..., 'sender': ...}]. *)
Record Event : Type :=
  mkEvent { ev_type : str; ev_message : str; ev_sender : str }.

(** One live consumer: its transport to the client and the text frames
    written to it so far. *)
Record Session : Type :=
  mkSession { transport_open : bool; outbox : list str }.

Record World : Type := mkWorld {
  users : gmap Z str;                 (* user table: primary key -> email *)
  messages : list Message;            (* message table, in insertion order *)
  clock : N;                          (* what timezone.now() reads *)
  store_up : bool;                    (* the store accepts writes *)
  groups : gmap str (gset str);       (* group name -> member channel names *)
  sessions : gmap str Session;        (* channel name -> consumer *)
  sent : list (str * Event);          (* history of the group_send calls *)
}.

Definition set_messages (l : list Message) (w : World) : World :=
  mkWorld (users w) l (clock w) (store_up w) (groups w) (sessions w) (sent w).
Definition set_users (u : gmap Z str) (w : World) : World :=
  mkWorld u (messages w) (clock w) (store_up w) (groups w) (sessions w) (sent w).
Definition set_groups (g : gmap str (gset str)) (w : World) : World :=
  mkWorld (users w) (messages w) (clock w) (store_up w) g (sessions w) (sent w).
Definition set_sessions (s : gmap str Session) (w : World) : World :=
  mkWorld (users w) (messages w) (clock w) (store_up w) (groups w) s (sent w).
Definition set_sent (l : list (str * Event)) (w : World) : World :=
  mkWorld (users w) (messages w) (clock w) (store_up w) (groups w) (sessions w) l.

(** ** Computations: state and exceptions *)

(** A call runs in a world and leaves a world behind, whether it returns or
    raises: what was written before an exception stays written. *)
Definition M (A : Type) : Type := World → res A * World.

Definition ret {A} (a : A) : M A := λ w, (Ret a, w).
Definition raise {A} (e : exn) : M A := λ w, (Raise e, w).
Definition bind {A B} (m : M A) (k : A → M B) : M B :=
  λ w, match m w with
       | (Ret a, w') => k a w'
       | (Raise e, w') => (Raise e, w')
       end.
Definition lift {A} (r : res A) : M A := λ w, (r, w).

(** [try: body  except <classes>: handler] *)
Definition try_except {A} (body : M A) (classes : list exn) (handler : M A)
  : M A :=
  λ w, match body w with
       | (Ret a, w') => (Ret a, w')
       | (Raise e, w') =>
           if bool_decide (e ∈ classes) then handler w' else (Raise e, w')
       end.

Notation "x <~ m ;; k" := (bind m (λ x, k))
  (at level 100, m at next level, right associativity, only parsing).
Notation "m ;;; k" := (bind m (λ _, k))
  (at level 100, right associativity, only parsing).

(** ** Library calls taken as parameters

    [json.loads], [json.dumps] and the ORM's conversion of a lookup value
    into a primary key are library code; the chat path is modelled for
    every behaviour they may have. *)
Record Env : Type := mkEnv {
  (** [json.loads] on a text frame; [None] stands for [JSONDecodeError]. *)
  json_loads : str → option json;
  (** [json.dumps] *)
  json_dumps : json → str;
  (** The key [User.objects.get(pk=value)] looks up: [Ret (Some k)] for a
      key, [Ret None] for a value that matches no row (Python's [None]),
      [Raise e] for a value the key field rejects. *)
  get_prep_value : json → res (option Z);
}.

(** ** [core/settings.py]: the channel layer *)

Inductive Backend : Type := InMemoryChannelLayer.

(** [CHANNEL_LAYERS = {'default': {'BACKEND': ...InMemoryChannelLayer}}] *)
Definition CHANNEL_LAYERS : gmap string Backend :=
  {[ "default"%string := InMemoryChannelLayer ]}.

(** [get_channel_layer()]: the layer configured under ['default'], [None]
    when there is none. *)
Definition get_channel_layer : option Backend :=
  CHANNEL_LAYERS !! "default"%string.

(** A method call on [self.channel_layer] / [channel_layer]: on [None] the
    attribute access raises. *)
Definition channel_layer_call {A} (call : M A) : M A :=
  match get_channel_layer with
  | Some _ => call
  | None => raise AttributeError
  end.

(** [CHAT_GROUP = 'chat_room'], in [consumers.py] and in [signals.py]. *)
Definition CHAT_GROUP : str := lit "chat_room".

(** ** Group Registry *)

(** Modelled from the spec: the group operations of the channel layer
    ([group_add], [group_discard] and the member lookup behind
    [group_send]) are library code, not part of the repository's sources.
    They follow section 4.1: [join] adds the member to the room's set and
    is a no-op if it is already present, [leave] removes the member if
    present and is a no-op otherwise, [membersOf] is the current set. *)
Definition membersOf (room : str) (w : World) : gset str :=
  default ∅ (groups w !! room).

Definition join (room member : str) (w : World) : World :=
  if decide (member ∈ membersOf room w) then w
  else set_groups (<[room := membersOf room w ∪ {[member]}]> (groups w)) w.

Definition leave (room member : str) (w : World) : World :=
  if decide (member ∈ membersOf room w)
  then set_groups (<[room := membersOf room w ∖ {[member]}]> (groups w)) w
  else w.

Definition group_add (group channel : str) : M unit :=
  λ w, (Ret tt, join group channel w).

Definition group_discard (group channel : str) : M unit :=
  λ w, (Ret tt, leave group channel w).

Section Chat.
Variable E : Env.

(** ** [consumers.py]: writing to the client *)

(** [self.send(text_data=...)]: appends a frame to the transport; raises
    when the transport is gone. *)
Definition send (text_data : str) (s : Session) : res Session :=
  if transport_open s
  then Ret (mkSession true (outbox s ++ [text_data]))
  else Raise ConnectionClosed.

(** [ChatConsumer.chat_message] *)
Definition chat_message (event : Event) (s : Session) : res Session :=
  send (json_dumps E (JDict {[ lit "message" := JStr (ev_message event);
                               lit "sender" := JStr (ev_sender event) ]})) s.

(** The consumer runs the handler named by the event's ['type']; both
    senders of this repository use ['chat_message']. *)
Definition consumer_dispatch (event : Event) (s : Session) : res Session :=
  if bool_decide (ev_type event = lit "chat_message")
  then chat_message event s
  else Raise ValueError.

(** ** Broadcast Router *)

(** Modelled from the spec: the dispatch loop behind [group_send] is
    library code, not part of the repository's sources.  It follows section
    4.2: the event is delivered to each member of a snapshot of the room,
    independently; a delivery that fails is caught and treated as that
    member having disconnected (it leaves the registry), and the loop goes
    on.  A member handle with no consumer behind it is a dead connection. *)
Definition deliver (room : str) (event : Event) (w : World) (member : str)
  : World :=
  match sessions w !! member with
  | Some s =>
      match consumer_dispatch event s with
      | Ret s' => set_sessions (<[member := s']> (sessions w)) w
      | Raise _ => leave room member w
      end
  | None => leave room member w
  end.

Definition dispatch (room : str) (event : Event) (w : World) : World :=
  foldl (deliver room event) w (elements (membersOf room w)).

(** [channel_layer.group_send(group, event)]: one BroadcastEvent issued to
    the router; [sent] keeps the history of these calls. *)
Definition group_send (group : str) (event : Event) : M unit :=
  λ w, (Ret tt, dispatch group event (set_sent (sent w ++ [(group, event)]) w)).

(** ** [signals.py] *)

(** [broadcast_message(sender, instance, created, **kwargs)];
    [instance_sender] is the user object [instance.sender] holds. *)
Definition broadcast_message (instance : Message) (instance_sender : User)
    (created : bool) : M unit :=
  if negb created then ret tt
  else
    match get_channel_layer with
    | None => ret tt
    | Some _ =>
        group_send CHAT_GROUP
          (mkEvent (lit "chat_message") (content instance)
                   (email instance_sender))
    end.

(** [apps.py] imports [users.signals] in [ready()], which registers
    [broadcast_message] as the one [post_save] receiver of [Message]. *)
Definition post_save (instance : Message) (instance_sender : User)
    (created : bool) : M unit :=
  broadcast_message instance instance_sender created.

(** ** The store *)

(** [User.objects.get(pk=value)] *)
Definition User_objects_get (value : json) : M User :=
  λ w, match get_prep_value E value with
       | Raise e => (Raise e, w)
       | Ret None => (Raise DoesNotExist, w)
       | Ret (Some k) =>
           match users w !! k with
           | Some e => (Ret (mkUser k e), w)
           | None => (Raise DoesNotExist, w)
           end
       end.

(** [Message.objects.create(sender=..., content=...)]: inserts the row with
    [timestamp] set by [auto_now_add], then sends [post_save] with
    [created=True].  A store that is down raises and inserts nothing. *)
Definition Message_objects_create (sender_obj : User) (text : str) : M unit :=
  λ w, if store_up w
       then
         let instance := mkMessage (pk sender_obj) text (clock w) in
         post_save instance sender_obj true
           (set_messages (messages w ++ [instance]) w)
       else (Raise OperationalError, w).

(** [instance.save()] on the row stored at position [i]: overwrites the row,
    then sends [post_save] with [created=False]. *)
Definition Message_save (i : nat) (instance : Message)
    (instance_sender : User) : M unit :=
  λ w, if store_up w
       then post_save instance instance_sender false
              (set_messages (<[i := instance]> (messages w)) w)
       else (Raise OperationalError, w).

(** [user.delete()]: [on_delete=models.CASCADE] removes the user's messages
    with the user. *)
Definition User_delete (k : Z) (w : World) : World :=
  set_messages (filter (λ m, sender m ≠ k) (messages w))
    (set_users (delete k (users w)) w).

(** ** [consumers.py]: the consumer *)

(** [ChatConsumer.connect]; [self.accept()] opens the transport of the
    consumer named [channel_name]. *)
Definition connect (channel_name : str) : M unit :=
  channel_layer_call (group_add CHAT_GROUP channel_name) ;;;
  λ w, (Ret tt,
        set_sessions (<[channel_name := mkSession true []]> (sessions w)) w).

(** [ChatConsumer.disconnect] *)
Definition disconnect (channel_name : str) (close_code : Z) : M unit :=
  channel_layer_call (group_discard CHAT_GROUP channel_name).

(** [ChatConsumer.save_message] *)
Definition save_message (sender_id : json) (text : str) : M (option str) :=
  try_except
    (sender_obj <~ User_objects_get sender_id ;;
     Message_objects_create sender_obj text ;;;
     ret (Some (email sender_obj)))
    [DoesNotExist]
    (ret None).

(** [sender_email or 'Anonymous']: [None] and the empty string are falsy. *)
Definition or_Anonymous (sender_email : option str) : str :=
  match sender_email with
  | Some (c :: s) => c :: s
  | _ => lit "Anonymous"
  end.

(** [ChatConsumer.receive] *)
Definition receive (text_data : str) : M unit :=
  parsed <~ try_except
    (data <~ lift (match json_loads E text_data with
                   | Some v => Ret v
                   | None => Raise JSONDecodeError
                   end) ;;
     message <~ lift (py_get data (lit "message") (JStr [])) ;;
     text <~ lift (py_strip message) ;;
     sender_id <~ lift (py_get data (lit "sender_id") JNull) ;;
     ret (Some (text, sender_id)))
    [JSONDecodeError; KeyError]
    (ret None) ;;
  match parsed with
  | None => ret tt                       (* Ignore malformed messages *)
  | Some (text, sender_id) =>
      if bool_decide (text = []) then ret tt
      else
        sender_email <~ save_message sender_id text ;;
        channel_layer_call
          (group_send CHAT_GROUP
             (mkEvent (lit "chat_message") text (or_Anonymous sender_email)))
  end.

End Chat.

(** ** Names for the statements

    The event [receive] sends for the text [c] and the looked-up email. *)
Definition receive_event (c : str) (sender_email : option str) : Event :=
  mkEvent (lit "chat_message") c (or_Anonymous sender_email).

(** The event the [post_save] receiver sends for a created message. *)
Definition signal_event (c : str) (u : User) : Event :=
  mkEvent (lit "chat_message") c (email u).

(** The text frame [chat_message] writes to a client for an event. *)
Definition event_frame (E : Env) (event : Event) : str :=
  json_dumps E (JDict {[ lit "message" := JStr (ev_message event);
                         lit "sender" := JStr (ev_sender event) ]}).

(** The consumer a delivery leaves behind, and whether the delivery went
    through. *)
Definition handled (E : Env) (event : Event) (o : option Session)
  : option Session :=
  match o with
  | Some s =>
      match consumer_dispatch E event s with
      | Ret s' => Some s'
      | Raise _ => Some s
      end
  | None => None
  end.

Definition accepts (E : Env) (event : Event) (o : option Session) : bool :=
  match o with
  | Some s =>
      match consumer_dispatch E event s with
      | Ret _ => true
      | Raise _ => false
      end
  | None => false
  end.

(** What stays of a world when only the registry and the consumers move. *)
Definition same_store (w w' : World) : Prop :=
  users w' = users w ∧ messages w' = messages w ∧ clock w' = clock w
  ∧ store_up w' = store_up w ∧ sent w' = sent w.

(** What a call leaves of the two tables: the user table as it was, and the
    message table either as it was or with one row appended whose sender is
    a row of the user table. *)
Definition tables_kept (w w' : World) : Prop :=
  users w' = users w
  ∧ (messages w' = messages w
     ∨ ∃ u c, users w !! pk u = Some (email u)
              ∧ messages w' = messages w ++ [mkMessage (pk u) c (clock w)]).

(** ** [views.py]: the chat page *)

(** [order_by('-timestamp')]: newest first. *)
Definition newer_first (a b : Message) : Prop :=
  (timestamp b ≤ timestamp a)%N.

Global Instance newer_first_dec : RelDecision newer_first.
Proof. intros a b. unfold newer_first. apply _. Defined.

(** Oldest first: the order the page shows. *)
Definition older_first (a b : Message) : Prop :=
  (timestamp a ≤ timestamp b)%N.

(** [ChatPageView.get]: the messages handed to the template,
    [reversed(list(Message.objects...order_by('-timestamp')[:50]))]. *)
Definition ChatPageView_get (w : World) : list Message :=
  reverse (take 50 (merge_sort newer_first (messages w))).

(** ** A concrete environment and world, for evaluating the model *)

Module Sample.

(** A quoted JSON string, without escapes. *)
Definition quoted (s : str) : str := [34%N] ++ s ++ [34%N].

(** [{"message": <m>, "sender_id": <id>}] as the client writes it. *)
Definition frame (m : str) (id : str) : str :=
  lit "{" ++ quoted (lit "message") ++ lit ": " ++ quoted m ++ lit ", "
    ++ quoted (lit "sender_id") ++ lit ": " ++ id ++ lit "}".

Definition frame_hello : str := frame (lit "hello") (lit "1").
Definition frame_stranger : str := frame (lit "hello") (lit "99").
Definition frame_blank : str := frame (lit "  ") (lit "1").
Definition frame_list : str := lit "[]".
Definition frame_no_sender : str :=
  lit "{" ++ quoted (lit "message") ++ lit ": " ++ quoted (lit "hi")
    ++ lit "}".
Definition frame_garbage : str := lit "{not json".

Definition submission (m : str) (id : Z) : json :=
  JDict {[ lit "message" := JStr m; lit "sender_id" := JInt id ]}.

(** A decoder that knows the frames above, and rejects every other text. *)
Definition loads (t : str) : option json :=
  if decide (t = frame_hello) then Some (submission (lit "hello") 1)
  else if decide (t = frame_stranger) then Some (submission (lit "hello") 99)
  else if decide (t = frame_blank) then Some (submission (lit "  ") 1)
  else if decide (t = frame_list) then Some (JList [])
  else if decide (t = frame_no_sender)
       then Some (JDict {[ lit "message" := JStr (lit "hi") ]})
  else None.

(** An encoder for the objects [chat_message] writes. *)
Definition dumps (v : json) : str :=
  match v with
  | JDict d =>
      match d !! lit "message", d !! lit "sender" with
      | Some (JStr m), Some (JStr s) =>
          lit "{" ++ quoted (lit "message") ++ lit ": " ++ quoted m
            ++ lit ", " ++ quoted (lit "sender") ++ lit ": " ++ quoted s
            ++ lit "}"
      | _, _ => []
      end
  | _ => []
  end.

(** Integer keys are looked up, [None] matches no row, [True]/[False] are
    the integers 1 and 0, other values are rejected. *)
Definition prep (v : json) : res (option Z) :=
  match v with
  | JInt k => Ret (Some k)
  | JNull => Ret None
  | JBool b => Ret (Some (if b then 1 else 0))
  | JStr _ | JFloat _ => Raise ValueError
  | JList _ | JDict _ => Raise TypeError
  end.

Definition env : Env := mkEnv loads dumps prep.

Definition alice : User := mkUser 1 (lit "alice@example.com").

Definition chan_a : str := lit "specific.a".
Definition chan_b : str := lit "specific.b".

(** One registered user, no message yet, two clients in the room. *)
Definition world : World :=
  mkWorld {[ 1 := email alice ]} [] 1000 true
    {[ CHAT_GROUP := {[ chan_a; chan_b ]} ]}
    {[ chan_a := mkSession true []; chan_b := mkSession true [] ]}
    [].

(** The same world with a store that refuses writes. *)
Definition world_store_down : World :=
  mkWorld (users world) [] 1000 false (groups world) (sessions world) [].

(** The same world where the transport of [chan_a] is gone. *)
Definition world_a_dead : World :=
  set_sessions (<[chan_a := mkSession false []]> (sessions world)) world.

End Sample.

(** ** Runs of the system *)

(** What can happen to the world on the client path and in the user table:
    a client connects, disconnects or sends a text frame, and a user is
    deleted. *)
Inductive op : Type :=
  | OpConnect (channel_name : str)
  | OpDisconnect (channel_name : str) (close_code : Z)
  | OpReceive (text_data : str)
  | OpDeleteUser (k : Z).

Definition step (E : Env) (w : World) (o : op) : World :=
  match o with
  | OpConnect c => (connect c w).2
  | OpDisconnect c code => (disconnect c code w).2
  | OpReceive t => (receive E t w).2
  | OpDeleteUser k => User_delete k w
  end.

Definition run (E : Env) (ops : list op) (w : World) : World :=
  foldl (step E) w ops.

(** Every stored message names a sender that is a row of the user table. *)
Definition senders_exist (w : World) : Prop :=
  ∀ m, m ∈ messages w → is_Some (users w !! sender m).

(** ** More frames for the sample world *)

Module Frames.

(** [{"message": 5, "sender_id": 1}] *)
Definition frame_number_message : str :=
  lit "{" ++ Sample.quoted (lit "message") ++ lit ": 5, "
    ++ Sample.quoted (lit "sender_id") ++ lit ": 1}".

(** [{"message": "hi", "sender_id": "abc"}] *)
Definition frame_text_sender : str :=
  Sample.frame (lit "hi") (Sample.quoted (lit "abc")).

(** [{"message": "  hi there \n", "sender_id": 1}], the line feed written
    as the client escapes it. *)
Definition frame_padded : str :=
  Sample.frame (lit "  hi there \n") (lit "1").

(** The decoder of the sample world, taught the frames above. *)
Definition loads (t : str) : option json :=
  if decide (t = frame_number_message)
  then Some (JDict {[ lit "message" := JInt 5; lit "sender_id" := JInt 1 ]})
  else if decide (t = frame_text_sender)
  then Some (JDict {[ lit "message" := JStr (lit "hi");
                      lit "sender_id" := JStr (lit "abc") ]})
  else if decide (t = frame_padded)
  then Some (Sample.submission (lit "  hi there " ++ [10%N]) 1)
  else Sample.loads t.

Definition env : Env := mkEnv loads Sample.dumps Sample.prep.

End Frames.

(** ** Names for more statements *)

(** A text that is not empty and neither starts nor ends with whitespace. *)
Definition trimmed (s : str) : Prop :=
  s ≠ []
  ∧ (∀ c, head s = Some c → isspace c = false)
  ∧ (∀ c, last s = Some c → isspace c = false).

(** Every stored message has a trimmed content. *)
Definition contents_trimmed (w : World) : Prop :=
  ∀ m, m ∈ messages w → trimmed (content m).

(** ** [str(n)] *)

(** The decimal digits of [n], most significant first, in front of [acc];
    [fuel] bounds the number of digits. *)
Fixpoint digits (fuel : nat) (n : N) (acc : str) : str :=
  match fuel with
  | O => acc
  | S fuel' =>
      let acc' := (48 + n `mod` 10)%N :: acc in
      if (n `div` 10 =? 0)%N then acc' else digits fuel' (n `div` 10) acc'
  end.

(** [str(n)] for a Python [int]; a number has no more decimal digits than
    binary ones. *)
Definition str_of_int (n : Z) : str :=
  let m := Z.to_N (Z.abs n) in
  let ds := digits (S (N.to_nat (N.log2 m))) m [] in
  if n <? 0 then 45%N :: ds else ds.

(** What [int(s)] reads back from a string of decimal digits. *)
Definition int_of_digits (s : str) : N :=
  foldl (λ acc c, acc * 10 + (c - 48))%N 0%N s.

(** A decimal digit, ['0'] to ['9']. *)
Definition is_digit (c : N) : Prop := (48 ≤ c ≤ 57)%N.

(** * Accounts: registration, OTP verification and the login gate

    [users/models.py] ([User], [OTP]), [users/views.py] ([RegisterView],
    [VerifyOTPView], [VerifiedUsersView]) and [users/serializers.py]
    ([UserRegistrationSerializer], [CustomTokenObtainPairSerializer]). *)

Module Accounts.

(** The exception classes that occur on these paths. *)
Inductive error : Type :=
  | DoesNotExist
  | MultipleObjectsReturned
  | IntegrityError
  | ValidationError (detail : str)
  | OtherError (label : str).

Inductive result (A : Type) : Type :=
  | Returns (a : A)
  | Raises (e : error).
Arguments Returns {A} a.
Arguments Raises {A} e.

(** A Python [float], by its binary64 pattern; these paths only carry it. *)
Record pyfloat : Type := mkFloat { float_bits : N }.

(** A row of [models.User]: the columns these paths read or write. *)
Record User : Type := mkUser {
  id : Z;
  username : str;
  password : str;
  email : str;
  name : str;
  mobile : str;
  profile_image : option str;
  latitude : option pyfloat;
  longitude : option pyfloat;
  is_verified : bool;
}.

Definition set_is_verified (b : bool) (u : User) : User :=
  mkUser (id u) (username u) (password u) (email u) (name u) (mobile u)
    (profile_image u) (latitude u) (longitude u) b.

(** A row of [models.OTP]; [user] is the key of the user it belongs to,
    [created_at] is in microseconds. *)
Record OTP : Type := mkOTP { user : Z; code : str; created_at : N }.

(** A message handed to [send_mail]. *)
Record Mail : Type := mkMail {
  subject : str;
  message : str;
  from_email : str;
  recipient_list : list str;
}.

Record State : Type := mkState {
  users : list User;          (* the user table *)
  otps : list OTP;            (* the OTP table *)
  next_user_id : Z;           (* the key the next inserted user gets *)
  mails : list Mail;          (* history of the send_mail calls *)
}.

(** A DRF [Response]: its data and its status code. *)
Inductive Body : Type :=
  | Errors (errors : gmap str json)          (* serializer.errors *)
  | Error (text : str)                       (* {'error': text} *)
  | Message (text : str)                     (* {'message': text} *)
  | Registered (text : str) (user_id : Z)    (* {'message':, 'user_id':} *)
  | Listed (rows : list User).   (* UserSerializer(rows, many=True).data *)

Record Response : Type := mkResponse { data : Body; status : Z }.

(** *** [models.py]: [OTP] *)

(** [timedelta(minutes=5)], in microseconds. *)
Definition FIVE_MINUTES : N := 5 * 60 * 1000000.

(** [OTP.is_expired], with [now] what [timezone.now()] reads. *)
Definition is_expired (otp : OTP) (now : N) : bool :=
  let expiry_time := (created_at otp + FIVE_MINUTES)%N in
  (expiry_time <? now)%N.

(** [OTP.generate_code], with [drawn] what [random.randint(100000, 999999)]
    returns. *)
Definition generate_code (drawn : Z) : str := str_of_int drawn.

(** *** [views.py]: [VerifyOTPView] *)

(** [User.objects.get(email=...)] *)
Definition User_objects_get (e : str) (s : State) : result User :=
  match filter (λ u, email u = e) (users s) with
  | [] => Raises DoesNotExist
  | [u] => Returns u
  | _ => Raises MultipleObjectsReturned
  end.

(** [order_by('-created_at')] *)
Definition newer_otp_first (a b : OTP) : Prop :=
  (created_at b ≤ created_at a)%N.

Global Instance newer_otp_first_dec : RelDecision newer_otp_first.
Proof. intros a b. unfold newer_otp_first. apply _. Defined.

(** [OTP.objects.filter(user=user, code=code).order_by('-created_at')
    .first()] *)
Definition latest_otp (user_id : Z) (c : str) (s : State) : option OTP :=
  head (merge_sort newer_otp_first
          (filter (λ o, user o = user_id ∧ code o = c) (otps s))).

(** [user.is_verified = True; user.save(update_fields=['is_verified'])]:
    the rows with the user's key get the flag. *)
Definition mark_verified (user_id : Z) (s : State) : State :=
  mkState
    ((λ u, if decide (id u = user_id) then set_is_verified true u else u)
       <$> users s)
    (otps s) (next_user_id s) (mails s).

(** [OTP.objects.filter(user=user).delete()] *)
Definition delete_otps (user_id : Z) (s : State) : State :=
  mkState (users s) (filter (λ o, user o ≠ user_id) (otps s))
    (next_user_id s) (mails s).

(** [VerifyOTPView.post].  [is_valid] is [OTPVerifySerializer]'s validation
    of the request data: the errors, or the validated [email] and [code]. *)
Definition VerifyOTPView_post
    (is_valid : json → gmap str json + str * str)
    (request_data : json) (now : N) (s : State)
  : result Response * State :=
  match is_valid request_data with
  | inl errors => (Returns (mkResponse (Errors errors) 400), s)
  | inr (e, c) =>
      match User_objects_get e s with
      | Raises DoesNotExist =>
          (Returns (mkResponse (Error (lit "User not found.")) 404), s)
      | Raises err => (Raises err, s)
      | Returns u =>
          match latest_otp (id u) c s with
          | None =>
              (Returns (mkResponse (Error (lit "Invalid OTP.")) 400), s)
          | Some otp =>
              if is_expired otp now
              then (Returns
                      (mkResponse
                         (Error
                            (lit "OTP has expired. Please request a new one."))
                         400), s)
              else (Returns
                      (mkResponse
                         (Message
                            (lit "Email verified successfully. You can now log in."))
                         200),
                    delete_otps (id u) (mark_verified (id u) s))
          end
      end
  end.

(** The answer to a successful verification, and to a code that matches
    no OTP of the user. *)
Definition verified_response : Response :=
  mkResponse
    (Message (lit "Email verified successfully. You can now log in.")) 200.

Definition invalid_otp_response : Response :=
  mkResponse (Error (lit "Invalid OTP.")) 400.

(** [VerifiedUsersView.get_queryset] *)
Definition VerifiedUsersView_get_queryset (s : State) : list User :=
  filter (λ u, is_verified u = true) (users s).

(** *** [serializers.py]: [UserRegistrationSerializer] *)

(** The validated data of a registration besides the email: an optional
    field the request leaves out is absent ([None] here), and the model's
    default is stored for it. *)
Record Registration : Type := mkRegistration {
  reg_name : option str;
  reg_mobile : option str;
  reg_profile_image : option str;
  reg_latitude : option pyfloat;
  reg_longitude : option pyfloat;
  reg_password : str;
}.

(** The field validation DRF runs for the declared fields, taken as
    parameters: the [email] field (its error detail, or its value) and the
    other fields (their errors by field name, or their values). *)
Record RegistrationFields : Type := mkRegistrationFields {
  email_field : list User → json → json + str;
  other_fields : json → gmap str json + Registration;
}.

(** [UserRegistrationSerializer.validate_email] *)
Definition validate_email (value : str) (s : State) : result str :=
  match filter (λ u, email u = value) (users s) with
  | [] => Returns value
  | _ :: _ =>
      Raises (ValidationError (lit "A user with this email already exists."))
  end.

(** [serializer.is_valid()]: each field is validated, [validate_email] is
    run on the value of the [email] field, and the errors are collected by
    field name. *)
Definition is_valid (F : RegistrationFields) (request_data : json)
    (s : State) : result (gmap str json + str * Registration) :=
  let email_result :=
    match email_field F (users s) request_data with
    | inl detail => Returns (inl detail)
    | inr value =>
        match validate_email value s with
        | Returns v => Returns (inr v)
        | Raises (ValidationError detail) =>
            Returns (inl (JList [JStr detail]))
        | Raises e => Raises e
        end
    end in
  match email_result with
  | Raises e => Raises e
  | Returns (inr v) =>
      match other_fields F request_data with
      | inr r => Returns (inr (v, r))
      | inl errors => Returns (inl errors)
      end
  | Returns (inl detail) =>
      match other_fields F request_data with
      | inr _ => Returns (inl {[ lit "email" := detail ]})
      | inl errors => Returns (inl (<[lit "email" := detail]> errors))
      end
  end.

(** [user.save()] for a new user: the row gets the next key; the columns
    [username] and [email] are unique. *)
Definition User_save_new (u : User) (s : State) : result User * State :=
  match filter (λ r, username r = username u ∨ email r = email u) (users s)
  with
  | [] =>
      let row :=
        mkUser (next_user_id s) (username u) (password u) (email u)
          (name u) (mobile u) (profile_image u) (latitude u) (longitude u)
          (is_verified u) in
      (Returns row,
       mkState (users s ++ [row]) (otps s) (next_user_id s + 1) (mails s))
  | _ :: _ => (Raises IntegrityError, s)
  end.

(** [UserRegistrationSerializer.create]: [username] is not a field of the
    serializer, so [setdefault] always sets it to the email; the columns
    left out get the defaults of the model. *)
Definition UserRegistrationSerializer_create (make_password : str → str)
    (e : str) (r : Registration) (s : State) : result User * State :=
  User_save_new
    (mkUser 0 e (make_password (reg_password r)) e
       (default [] (reg_name r)) (default [] (reg_mobile r))
       (reg_profile_image r) (reg_latitude r) (reg_longitude r) false) s.

(** [OTP.objects.create(user=user, code=otp_code)] *)
Definition OTP_objects_create (user_id : Z) (c : str) (now : N) (s : State)
  : State :=
  mkState (users s) (otps s ++ [mkOTP user_id c now]) (next_user_id s)
    (mails s).

(** [user.name or user.email] *)
Definition name_or_email (u : User) : str :=
  match name u with
  | [] => email u
  | c :: n => c :: n
  end.

(** The text of the mail that carries the code. *)
Definition otp_mail_text (u : User) (otp_code : str) : str :=
  lit "Hello " ++ name_or_email u ++ lit "," ++ [10; 10]%N
    ++ lit "Your OTP code is: " ++ otp_code ++ [10%N]
    ++ lit "This code is valid for 5 minutes." ++ [10; 10]%N
    ++ lit "If you did not request this, please ignore this email.".

(** *** [views.py]: [RegisterView] *)

(** [RegisterView.post].  [send_mail] is the mail backend, which may raise;
    [DEFAULT_FROM_EMAIL] is the setting; [drawn] is what [random.randint]
    returns and [now] what the clock reads. *)
Definition RegisterView_post (F : RegistrationFields)
    (make_password : str → str) (send_mail : Mail → result unit)
    (DEFAULT_FROM_EMAIL : str)
    (request_data : json) (drawn : Z) (now : N) (s : State)
  : result Response * State :=
  match is_valid F request_data s with
  | Raises e => (Raises e, s)
  | Returns (inl errors) => (Returns (mkResponse (Errors errors) 400), s)
  | Returns (inr (e, r)) =>
      match UserRegistrationSerializer_create make_password e r s with
      | (Raises err, s') => (Raises err, s')
      | (Returns u, s1) =>
          let otp_code := generate_code drawn in
          let s2 := OTP_objects_create (id u) otp_code now s1 in
          let mail :=
            mkMail (lit "Your OTP Verification Code")
              (otp_mail_text u otp_code) DEFAULT_FROM_EMAIL [email u] in
          let s3 :=
            mkState (users s2) (otps s2) (next_user_id s2)
              (mails s2 ++ [mail]) in
          let response :=
            mkResponse
              (Registered
                 (lit "Registration successful. An OTP has been sent to your email.")
                 (id u))
              201 in
          match send_mail mail with
          | Returns _ => (Returns response, s3)
          | Raises exc => (Returns response, s3)   (* logged, not raised *)
          end
      end
  end.

(** *** [views.py]: [NearbyUsersView] *)

(** Floating point is not modelled: [haversine] (the function of
    [views.py]), the comparison [<=] on floats and the parsing [float(s)] of
    a string ([None] for [ValueError]) are parameters. *)
Record FloatOps : Type := mkFloatOps {
  haversine : pyfloat → pyfloat → pyfloat → pyfloat → pyfloat;
  float_le : pyfloat → pyfloat → bool;
  float_of_str : str → option pyfloat;
}.

(** [float(5)], the float 5.0. *)
Definition FIVE : pyfloat := mkFloat 0x4014000000000000.

(** [float(request.query_params.get('radius', 5))], 5.0 on [ValueError]. *)
Definition radius_of (O : FloatOps) (radius_param : option str) : pyfloat :=
  match radius_param with
  | None => FIVE
  | Some text =>
      match float_of_str O text with
      | Some f => f
      | None => FIVE
      end
  end.

(** The candidates: verified users with coordinates, the requester left
    out. *)
Definition candidates (current_user : User) (s : State) : list User :=
  filter (λ u, id u ≠ id current_user)
    (filter (λ u, is_verified u = true
                  ∧ latitude u ≠ None ∧ longitude u ≠ None) (users s)).

(** One turn of the loop over the candidates. *)
Definition nearby_step (O : FloatOps) (lat lon radius : pyfloat)
    (nearby : list User) (u : User) : list User :=
  match latitude u, longitude u with
  | Some ulat, Some ulon =>
      if float_le O (haversine O lat lon ulat ulon) radius
      then nearby ++ [u]
      else nearby
  | _, _ => nearby      (* not a candidate *)
  end.

(** [NearbyUsersView.get]; [current_user] is [request.user] and
    [radius_param] the query parameter ['radius'], when given. *)
Definition NearbyUsersView_get (O : FloatOps) (current_user : User)
    (radius_param : option str) (s : State) : Response :=
  match latitude current_user, longitude current_user with
  | Some lat, Some lon =>
      let radius := radius_of O radius_param in
      mkResponse
        (Listed (foldl (nearby_step O lat lon radius) []
                   (candidates current_user s)))
        200
  | _, _ =>
      mkResponse
        (Error
           (lit "Your profile does not have location data. Please update latitude/longitude."))
        400
  end.


(** *** [serializers.py]: [CustomTokenObtainPairSerializer] *)

(** [CustomTokenObtainPairSerializer.validate].  [super_validate] is the
    credential check of the library: it raises, or returns the user it
    authenticated ([self.user]) and the token data. *)
Definition CustomTokenObtainPairSerializer_validate
    (super_validate : State → json → result (User * gmap str json))
    (attrs : json) (s : State) : result (gmap str json) :=
  match super_validate s attrs with
  | Raises e => Raises e
  | Returns (self_user, token_data) =>
      if negb (is_verified self_user)
      then Raises
             (ValidationError
                (lit "Account not verified. Please verify your email with the OTP sent to you."))
      else Returns
             (<[lit "user" :=
                  JDict {[ lit "id" := JInt (id self_user);
                           lit "email" := JStr (email self_user);
                           lit "name" := JStr (name self_user) ]}]>
                token_data)
  end.

(** *** Names for the statements *)

(** The row a registration stores. *)
Definition registered_user (make_password : str → str) (e : str)
    (r : Registration) (s : State) : User :=
  mkUser (next_user_id s) e (make_password (reg_password r)) e
    (default [] (reg_name r)) (default [] (reg_mobile r))
    (reg_profile_image r) (reg_latitude r) (reg_longitude r) false.

(** The answer to a successful registration. *)
Definition registered_response (user_id : Z) : Response :=
  mkResponse
    (Registered
       (lit "Registration successful. An OTP has been sent to your email.")
       user_id)
    201.


(** The error detail of the login gate. *)
Definition not_verified_detail : str :=
  lit "Account not verified. Please verify your email with the OTP sent to you.".

(** *** Well-formed tables *)

(** Keys and emails are unique, every key is below the next key, and
    every OTP belongs to a user of the table. *)
Definition well_formed (s : State) : Prop :=
  NoDup (id <$> users s)
  ∧ NoDup (email <$> users s)
  ∧ (∀ u, u ∈ users s → id u < next_user_id s)
  ∧ (∀ o, o ∈ otps s → ∃ u, u ∈ users s ∧ id u = user o).

End Accounts.

(** ** A concrete site, for evaluating the accounts model *)

Module AccountsSample.
Import Accounts.

(** The field of a request object, when it is a string. *)
Definition text_field (request_data : json) (key : str) : option str :=
  match request_data with
  | JDict d =>
      match d !! key with
      | Some (JStr s) => Some s
      | _ => None
      end
  | _ => None
  end.

Definition required : json := JList [JStr (lit "This field is required.")].

(** A field validation that wants an [email] and a [password] of eight
    characters or more, and takes [name] and [mobile] when present. *)
Definition fields : RegistrationFields :=
  mkRegistrationFields
    (λ _ request_data,
       match text_field request_data (lit "email") with
       | Some e => inr e
       | None => inl required
       end)
    (λ request_data,
       match text_field request_data (lit "password") with
       | Some p =>
           if decide (8 ≤ length p)%nat
           then inr (mkRegistration
                       (text_field request_data (lit "name"))
                       (text_field request_data (lit "mobile"))
                       None None None p)
           else inl {[ lit "password" :=
                         JList [JStr (lit "Ensure this field has at least 8 characters.")] ]}
       | None => inl {[ lit "password" := required ]}
       end).

(** A stand-in for the password hasher. *)
Definition make_password (raw : str) : str := lit "hashed$" ++ reverse raw.

(** A mail backend that delivers, and one that is down. *)
Definition send_mail (m : Mail) : result unit := Returns tt.
Definition send_mail_down (m : Mail) : result unit :=
  Raises (OtherError (lit "SMTPException")).

(** The validation of a verification request: an [email] and a [code] of
    six characters. *)
Definition otp_is_valid (request_data : json) : gmap str json + str * str :=
  match text_field request_data (lit "email"),
        text_field request_data (lit "code") with
  | Some e, Some c =>
      if decide (length c = 6%nat) then inr (e, c)
      else inl {[ lit "code" := JList [JStr (lit "Invalid code.")] ]}
  | _, _ => inl {[ lit "email" := required ]}
  end.

(** A credential check that authenticates the user whose email and hashed
    password the attributes give. *)
Definition super_validate (s : State) (attrs : json)
  : result (User * gmap str json) :=
  match text_field attrs (lit "email"), text_field attrs (lit "password") with
  | Some e, Some p =>
      match filter (λ u, email u = e ∧ password u = make_password p)
              (users s) with
      | u :: _ =>
          Returns (u, {[ lit "refresh" := JStr (lit "r-token");
                         lit "access" := JStr (lit "a-token") ]})
      | [] => Raises (OtherError (lit "AuthenticationFailed"))
      end
  | _, _ => Raises (OtherError (lit "AuthenticationFailed"))
  end.

(** A flat world: a float is its bit pattern read as a number of
    kilometres along a line, and a string of digits parses to that many. *)
Definition flat : FloatOps :=
  mkFloatOps
    (λ lat1 lon1 lat2 lon2,
       mkFloat (if (float_bits lat1 <=? float_bits lat2)%N
                then float_bits lat2 - float_bits lat1
                else float_bits lat1 - float_bits lat2)%N)
    (λ a b, (float_bits a <=? float_bits b)%N)
    (λ text, if bool_decide (Forall is_digit text ∧ text ≠ [])
             then Some (mkFloat (int_of_digits text)) else None).

Definition bob_email : str := lit "bob@example.com".

Definition bob_registration : json :=
  JDict {[ lit "email" := JStr bob_email;
           lit "password" := JStr (lit "s3cretpass");
           lit "name" := JStr (lit "Bob") ]}.

Definition bob_credentials : json :=
  JDict {[ lit "email" := JStr bob_email;
           lit "password" := JStr (lit "s3cretpass") ]}.

Definition bob_verification (c : str) : json :=
  JDict {[ lit "email" := JStr bob_email; lit "code" := JStr c ]}.

(** A site with no user yet. *)
Definition empty : State := mkState [] [] 1 [].

(** Bob registers at time 1000; 482913 is drawn. *)
Definition after_registration : State :=
  (RegisterView_post fields make_password send_mail (lit "noreply@example.com")
     bob_registration 482913 1000 empty).2.

(** Bob verifies one minute later. *)
Definition after_verification : State :=
  (VerifyOTPView_post otp_is_valid (bob_verification (lit "482913"))
     60001000 after_registration).2.

End AccountsSample.

(** ** Users on a line, for the nearby search *)

Module NearbySample.
Import Accounts.

Definition at_km (i : Z) (e : str) (km : N) (verified : bool) : User :=
  mkUser i e [] e [] [] None (Some (mkFloat km)) (Some (mkFloat 0)) verified.

Definition ann : User := at_km 1 (lit "ann@example.com") 10 true.
Definition ben : User := at_km 2 (lit "ben@example.com") 12 true.
Definition cat : User := at_km 3 (lit "cat@example.com") 13 false.
Definition dan : User := at_km 4 (lit "dan@example.com") 40 true.
Definition eve : User :=
  mkUser 5 (lit "eve@example.com") [] (lit "eve@example.com") [] [] None
    None None true.

Definition site : State := mkState [ann; ben; cat; dan; eve] [] 6 [].

End NearbySample.

(** * Properties *)

(** ** [str.strip] *)

Lemma lstrip_all_space (s : str) :
  forallb isspace s = true → lstrip s = [].
Proof.
  induction s as [|c s IH]; simpl; [done|].
  intros [Hc Hs]%andb_prop. rewrite Hc. by apply IH.
Qed.

Lemma strip_all_space (s : str) :
  forallb isspace s = true → strip s = [].
Proof.
  intros Hs. unfold strip, rstrip. by rewrite (lstrip_all_space s Hs).
Qed.

Lemma lstrip_nil_all_space (s : str) :
  lstrip s = [] → forallb isspace s = true.
Proof.
  induction s as [|c s IH]; simpl; [done|].
  destruct (isspace c); [exact IH|discriminate].
Qed.

(** What [lstrip] removes is whitespace. *)
Lemma lstrip_split (s : str) :
  ∃ spaces, s = spaces ++ lstrip s ∧ forallb isspace spaces = true.
Proof.
  induction s as [|c s (spaces & Hs & Hsp)]; simpl.
  - by exists [].
  - destruct (isspace c) eqn:Hc.
    + exists (c :: spaces). simpl. rewrite Hc, Hsp. by rewrite Hs at 1.
    + by exists [].
Qed.

Lemma forallb_reverse (f : N → bool) (s : str) :
  forallb f (reverse s) = forallb f s.
Proof.
  induction s as [|c s IH]; [done|].
  rewrite reverse_cons, forallb_app. simpl. rewrite IH.
  by destruct (f c), (forallb f s).
Qed.

(** [strip] leaves nothing exactly of the strings made of whitespace. *)
Lemma strip_nil_iff (s : str) :
  strip s = [] ↔ forallb isspace s = true.
Proof.
  split; [|apply strip_all_space].
  unfold strip, rstrip. intros Hnil.
  assert (lstrip (reverse (lstrip s)) = []) as Hrev.
  { by rewrite <- (reverse_involutive (lstrip _)), Hnil. }
  apply lstrip_nil_all_space in Hrev. rewrite forallb_reverse in Hrev.
  destruct (lstrip_split s) as (spaces & Hs & Hsp).
  rewrite Hs, forallb_app, Hsp. exact Hrev.
Qed.

Example strip_hello :
  strip (lit "  hello world ") = lit "hello world".
Proof. reflexivity. Qed.

Example strip_tabs_newlines : strip [9; 10; 32; 160; 8232]%N = [].
Proof. reflexivity. Qed.

(** U+200B, the zero-width space, is not whitespace for [str.strip]. *)
Example strip_zero_width : strip [8203]%N = [8203]%N.
Proof. reflexivity. Qed.

(** ** The router touches the registry and the consumers only *)

Lemma membersOf_leave room member w :
  membersOf room (leave room member w) = membersOf room w ∖ {[member]}.
Proof.
  unfold leave. case_decide as Hin.
  - unfold membersOf at 1. simpl. by rewrite lookup_insert_eq.
  - rewrite difference_disjoint_L; [done|]. by apply disjoint_singleton_r.
Qed.

Lemma leave_absent room member w :
  member ∉ membersOf room w → leave room member w = w.
Proof. intros Hnin. unfold leave. by rewrite decide_False. Qed.

Lemma same_store_refl w : same_store w w.
Proof. by repeat split. Qed.

Lemma same_store_trans w1 w2 w3 :
  same_store w1 w2 → same_store w2 w3 → same_store w1 w3.
Proof.
  intros (?&?&?&?&?) (?&?&?&?&?). repeat split; congruence.
Qed.

Lemma leave_same_store room member w : same_store w (leave room member w).
Proof. unfold leave. case_decide; by repeat split. Qed.

Lemma leave_sessions room member w :
  sessions (leave room member w) = sessions w.
Proof. unfold leave. by case_decide. Qed.

Section RouterFacts.
Variable E : Env.

Lemma deliver_same_store room event w member :
  same_store w (deliver E room event w member).
Proof.
  unfold deliver. destruct (sessions w !! member) as [s|];
    [destruct (consumer_dispatch E event s)|];
    try apply leave_same_store.
  by repeat split.
Qed.

Lemma foldl_deliver_same_store room event l w :
  same_store w (foldl (deliver E room event) w l).
Proof.
  revert w. induction l as [|x l IH]; intros w; simpl.
  - apply same_store_refl.
  - eapply same_store_trans; [apply deliver_same_store|apply IH].
Qed.

Lemma dispatch_same_store room event w :
  same_store w (dispatch E room event w).
Proof. apply foldl_deliver_same_store. Qed.

Lemma group_send_spec group event w :
  ∃ w', group_send E group event w = (Ret tt, w')
    ∧ users w' = users w ∧ messages w' = messages w
    ∧ clock w' = clock w ∧ store_up w' = store_up w
    ∧ sent w' = sent w ++ [(group, event)]
    ∧ w' = dispatch E group event (set_sent (sent w ++ [(group, event)]) w).
Proof.
  eexists. split; [reflexivity|].
  destruct (dispatch_same_store group event
              (set_sent (sent w ++ [(group, event)]) w)) as (?&?&?&?&?).
  by repeat split.
Qed.

End RouterFacts.

(** ** The configured channel layer *)

Lemma get_channel_layer_configured :
  get_channel_layer = Some InMemoryChannelLayer.
Proof. reflexivity. Qed.

Lemma channel_layer_call_configured {A} (call : M A) :
  channel_layer_call call = call.
Proof. unfold channel_layer_call. by rewrite get_channel_layer_configured. Qed.

(** ** The steps of [receive] *)

Section ReceiveFacts.
Variable E : Env.

Lemma receive_undecodable text w :
  json_loads E text = None → receive E text w = (Ret tt, w).
Proof.
  intros Hloads. unfold receive, bind, try_except, lift.
  by rewrite Hloads.
Qed.

Lemma receive_decoded text d m w :
  json_loads E text = Some (JDict d) →
  default (JStr []) (d !! lit "message") = JStr m →
  receive E text w =
    if bool_decide (strip m = []) then (Ret tt, w)
    else
      bind (save_message E (default JNull (d !! lit "sender_id")) (strip m))
        (λ sender_email,
           group_send E CHAT_GROUP (receive_event (strip m) sender_email)) w.
Proof.
  intros Hloads Hmsg. unfold receive.
  unfold channel_layer_call. rewrite get_channel_layer_configured.
  unfold bind at 1, try_except, lift, bind. rewrite Hloads. simpl.
  rewrite Hmsg. simpl. by case_bool_decide.
Qed.

End ReceiveFacts.

Section ClientPath.
Variable E : Env.

Lemma User_objects_get_world value w :
  (User_objects_get E value w).2 = w.
Proof.
  unfold User_objects_get.
  destruct (get_prep_value E value) as [[k|]|]; [|done..].
  by destruct (users w !! k).
Qed.

Lemma User_objects_get_Ret value w u w' :
  User_objects_get E value w = (Ret u, w') →
  users w !! pk u = Some (email u) ∧ w' = w.
Proof.
  unfold User_objects_get.
  destruct (get_prep_value E value) as [[k|]|]; [|done..].
  destruct (users w !! k) as [e|] eqn:Hk; [|done].
  by intros [= <- <-].
Qed.

(** A successful create: the row is appended, and the [post_save] receiver
    has sent its event to the room. *)
Lemma Message_objects_create_up u c w :
  store_up w = true →
  Message_objects_create E u c w =
    group_send E CHAT_GROUP (signal_event c u)
      (set_messages (messages w ++ [mkMessage (pk u) c (clock w)]) w).
Proof.
  intros Hup. unfold Message_objects_create, post_save, broadcast_message.
  by rewrite Hup, get_channel_layer_configured.
Qed.

Lemma Message_objects_create_down u c w :
  store_up w = false →
  Message_objects_create E u c w = (Raise OperationalError, w).
Proof. intros Hdown. unfold Message_objects_create. by rewrite Hdown. Qed.

(** A create that raises has found the store down, and has written
    nothing. *)
Lemma Message_objects_create_Raise u c w e w' :
  Message_objects_create E u c w = (Raise e, w') →
  e = OperationalError ∧ w' = w ∧ store_up w = false.
Proof.
  destruct (store_up w) eqn:Hup.
  - rewrite Message_objects_create_up by done. discriminate.
  - rewrite Message_objects_create_down by done. by intros [= <- <-].
Qed.

Lemma save_message_found sender_id c u w :
  User_objects_get E sender_id w = (Ret u, w) →
  store_up w = true →
  save_message E sender_id c w =
    (Ret (Some (email u)),
     (group_send E CHAT_GROUP (signal_event c u)
        (set_messages (messages w ++ [mkMessage (pk u) c (clock w)]) w)).2).
Proof.
  intros Hget Hup. unfold save_message, try_except, bind.
  rewrite Hget, Message_objects_create_up by done. reflexivity.
Qed.

Lemma save_message_unknown sender_id c w :
  User_objects_get E sender_id w = (Raise DoesNotExist, w) →
  save_message E sender_id c w = (Ret None, w).
Proof.
  intros Hget. unfold save_message, try_except, bind. by rewrite Hget.
Qed.

Lemma save_message_store_down sender_id c u w :
  User_objects_get E sender_id w = (Ret u, w) →
  store_up w = false →
  save_message E sender_id c w = (Raise OperationalError, w).
Proof.
  intros Hget Hdown. unfold save_message, try_except, bind.
  by rewrite Hget, Message_objects_create_down.
Qed.

End ClientPath.

(** ** The dispatch loop, member by member *)

Section DispatchFacts.
Variable E : Env.

Lemma consumer_dispatch_live event s :
  ev_type event = lit "chat_message" →
  transport_open s = true →
  consumer_dispatch E event s
  = Ret (mkSession true (outbox s ++ [event_frame E event])).
Proof.
  intros Hty Hopen. unfold consumer_dispatch, chat_message, send.
  by rewrite bool_decide_eq_true_2, Hopen.
Qed.

Lemma consumer_dispatch_dead event s :
  transport_open s = false →
  ∃ e, consumer_dispatch E event s = Raise e.
Proof.
  intros Hdead. unfold consumer_dispatch, chat_message, send.
  rewrite Hdead. case_bool_decide; eauto.
Qed.

Lemma deliver_sessions room event w x c :
  sessions (deliver E room event w x) !! c
  = if decide (c = x) then handled E event (sessions w !! x)
    else sessions w !! c.
Proof.
  unfold deliver, handled.
  destruct (sessions w !! x) as [s|] eqn:Hx;
    [destruct (consumer_dispatch E event s)|];
    rewrite ?leave_sessions; simpl;
    case_decide; simplify_map_eq; done.
Qed.

Lemma deliver_members room event w x c :
  c ∈ membersOf room (deliver E room event w x)
  ↔ c ∈ membersOf room w ∧ (c = x → accepts E event (sessions w !! x) = true).
Proof.
  unfold deliver, accepts.
  destruct (sessions w !! x) as [s|] eqn:Hx;
    [destruct (consumer_dispatch E event s)|];
    rewrite ?membersOf_leave, ?elem_of_difference, ?elem_of_singleton;
    naive_solver.
Qed.

Lemma foldl_deliver room event l :
  NoDup l → ∀ w,
  (∀ c, sessions (foldl (deliver E room event) w l) !! c
        = if decide (c ∈ l) then handled E event (sessions w !! c)
          else sessions w !! c)
  ∧ (∀ c, c ∈ membersOf room (foldl (deliver E room event) w l)
          ↔ c ∈ membersOf room w
            ∧ (c ∈ l → accepts E event (sessions w !! c) = true)).
Proof.
  induction 1 as [|x l Hx Hl IH]; intros w; cbn [foldl].
  - split; intros c.
    + case_decide as Hc; [by apply elem_of_nil in Hc|done].
    + rewrite elem_of_nil. naive_solver.
  - destruct (IH (deliver E room event w x)) as [IHs IHm].
    split; intros c.
    + rewrite IHs, !deliver_sessions.
      repeat case_decide; subst; try done;
        rewrite elem_of_cons in *; naive_solver.
    + rewrite IHm, deliver_members, deliver_sessions, elem_of_cons.
      case_decide; naive_solver.
Qed.

Lemma dispatch_sessions room event w c :
  sessions (dispatch E room event w) !! c
  = if decide (c ∈ membersOf room w) then handled E event (sessions w !! c)
    else sessions w !! c.
Proof.
  unfold dispatch.
  destruct (foldl_deliver room event (elements (membersOf room w))
              (NoDup_elements _) w) as [-> _].
  destruct (decide (c ∈ membersOf room w)) as [Hin|Hnin].
  - by rewrite decide_True by by apply elem_of_elements.
  - rewrite decide_False; [done|]. by rewrite elem_of_elements.
Qed.

Lemma dispatch_members room event w c :
  c ∈ membersOf room (dispatch E room event w)
  ↔ c ∈ membersOf room w ∧ accepts E event (sessions w !! c) = true.
Proof.
  unfold dispatch.
  destruct (foldl_deliver room event (elements (membersOf room w))
              (NoDup_elements _) w) as [_ ->].
  rewrite elem_of_elements. naive_solver.
Qed.

End DispatchFacts.

(** * The claims *)

Section Claims.
Variable E : Env.

(** C1 (the code departs from it): a successful submit of a client message
    should issue exactly one BroadcastEvent carrying its content.  In the
    code, a frame that decodes to an object with a non-blank message and a
    sender that resolves, received while the store is up, appends one
    message and issues two events with that content: the [post_save]
    receiver sends the first from inside [Message.objects.create], and
    [receive] sends the second itself. *)
Theorem receive_broadcasts_twice text d m u w :
  json_loads E text = Some (JDict d) →
  d !! lit "message" = Some (JStr m) →
  strip m ≠ [] →
  User_objects_get E (default JNull (d !! lit "sender_id")) w = (Ret u, w) →
  store_up w = true →
  (receive E text w).1 = Ret tt
  ∧ messages (receive E text w).2
    = messages w ++ [mkMessage (pk u) (strip m) (clock w)]
  ∧ sent (receive E text w).2
    = sent w ++ [(CHAT_GROUP, signal_event (strip m) u);
                 (CHAT_GROUP, receive_event (strip m) (Some (email u)))]
  ∧ ev_message (signal_event (strip m) u) = strip m
  ∧ ev_message (receive_event (strip m) (Some (email u))) = strip m.
Proof.
  intros Hloads Hmsg Hc Hget Hup.
  rewrite (receive_decoded E text d m w Hloads) by (by rewrite Hmsg).
  rewrite bool_decide_eq_false_2 by done.
  unfold bind. rewrite (save_message_found E _ _ u) by done.
  destruct (group_send_spec E CHAT_GROUP (signal_event (strip m) u)
    (set_messages (messages w ++ [mkMessage (pk u) (strip m) (clock w)]) w))
    as (w1 & -> & _ & Hm1 & _ & _ & Hs1 & _).
  cbn [fst snd].
  destruct (group_send_spec E CHAT_GROUP
    (receive_event (strip m) (Some (email u))) w1)
    as (w2 & -> & _ & Hm2 & _ & _ & Hs2 & _).
  simpl. rewrite Hm2, Hm1, Hs2, Hs1. simpl.
  by rewrite <- app_assoc.
Qed.

(** C2 (amended): when the [sender_id] of a submitted message refers to no
    existing user, submission proceeds rather than erroring and the one
    broadcast issued for it shows the display name "Anonymous"; no message
    is persisted for it. *)
Theorem receive_unknown_sender text d m w :
  json_loads E text = Some (JDict d) →
  d !! lit "message" = Some (JStr m) →
  strip m ≠ [] →
  User_objects_get E (default JNull (d !! lit "sender_id")) w
    = (Raise DoesNotExist, w) →
  (receive E text w).1 = Ret tt
  ∧ messages (receive E text w).2 = messages w
  ∧ sent (receive E text w).2
    = sent w ++ [(CHAT_GROUP, receive_event (strip m) None)]
  ∧ ev_message (receive_event (strip m) None) = strip m
  ∧ ev_sender (receive_event (strip m) None) = lit "Anonymous".
Proof.
  intros Hloads Hmsg Hc Hget.
  rewrite (receive_decoded E text d m w Hloads) by (by rewrite Hmsg).
  rewrite bool_decide_eq_false_2 by done.
  unfold bind. rewrite save_message_unknown by done.
  destruct (group_send_spec E CHAT_GROUP (receive_event (strip m) None) w)
    as (w1 & -> & _ & Hm1 & _ & _ & Hs1 & _).
  cbn [fst snd]. by rewrite Hm1, Hs1.
Qed.

(** C3 (the code departs from it): every frame that does not decode to an
    object with the required fields should be discarded without an error.
    In the code, a frame that decodes to anything but an object makes
    [receive] raise [AttributeError], which its [except] clause does not
    list. *)
Theorem receive_non_object_raises text v w :
  json_loads E text = Some v →
  (∀ d, v ≠ JDict d) →
  receive E text w = (Raise AttributeError, w).
Proof.
  intros Hloads Hv. unfold receive, bind, try_except, lift.
  rewrite Hloads.
  destruct v; try reflexivity. by destruct (Hv d).
Qed.

(** C4 (amended): if the Message Store append raises, no BroadcastEvent is
    issued for that message, nothing is persisted and no frame is written
    to any client; the exception is not swallowed, it propagates out of
    [receive]. *)
Theorem receive_store_failure text d m u w e w' :
  json_loads E text = Some (JDict d) →
  d !! lit "message" = Some (JStr m) →
  strip m ≠ [] →
  User_objects_get E (default JNull (d !! lit "sender_id")) w = (Ret u, w) →
  Message_objects_create E u (strip m) w = (Raise e, w') →
  receive E text w = (Raise e, w')
  ∧ sent w' = sent w ∧ messages w' = messages w ∧ sessions w' = sessions w.
Proof.
  intros Hloads Hmsg Hc Hget Hcreate.
  apply Message_objects_create_Raise in Hcreate as (-> & -> & Hdown).
  split; [|done].
  rewrite (receive_decoded E text d m w Hloads) by (by rewrite Hmsg).
  rewrite bool_decide_eq_false_2 by done.
  unfold bind. by rewrite (save_message_store_down E _ _ u).
Qed.

(** C5: a frame whose content is empty or whitespace-only (the message is
    absent, empty, or made of whitespace only) is dropped: [receive]
    returns and leaves the world as it was, so no message is appended and
    no BroadcastEvent is issued. *)
Theorem receive_blank_discarded text d w :
  json_loads E text = Some (JDict d) →
  (d !! lit "message" = None
   ∨ ∃ m, d !! lit "message" = Some (JStr m) ∧ forallb isspace m = true) →
  receive E text w = (Ret tt, w)
  ∧ messages (receive E text w).2 = messages w
  ∧ sent (receive E text w).2 = sent w.
Proof.
  intros Hloads Hblank.
  assert (∃ m, default (JStr []) (d !! lit "message") = JStr m
               ∧ strip m = []) as (m & Hm & Hstrip).
  { destruct Hblank as [->|(m & -> & Hsp)].
    - by exists [].
    - exists m. split; [done|]. by apply strip_all_space. }
  rewrite (receive_decoded E text d m w Hloads Hm).
  by rewrite bool_decide_eq_true_2.
Qed.

(** C6: a message created directly in the store (by any actor other than
    [receive]) triggers exactly one broadcast of its content, which reaches
    every current member of the room whose connection is live; saving an
    existing message again triggers no broadcast. *)
Theorem created_message_broadcast_once u c w :
  store_up w = true →
  (Message_objects_create E u c w).1 = Ret tt
  ∧ messages (Message_objects_create E u c w).2
    = messages w ++ [mkMessage (pk u) c (clock w)]
  ∧ sent (Message_objects_create E u c w).2
    = sent w ++ [(CHAT_GROUP, signal_event c u)]
  ∧ ev_message (signal_event c u) = c
  ∧ (∀ member s,
       member ∈ membersOf CHAT_GROUP w →
       sessions w !! member = Some s →
       transport_open s = true →
       sessions (Message_objects_create E u c w).2 !! member
       = Some (mkSession true
                 (outbox s ++ [event_frame E (signal_event c u)])))
  ∧ (∀ i instance instance_sender,
       (Message_save E i instance instance_sender w).1 = Ret tt
       ∧ sent (Message_save E i instance instance_sender w).2 = sent w
       ∧ sessions (Message_save E i instance instance_sender w).2
         = sessions w).
Proof.
  intros Hup. rewrite Message_objects_create_up by done.
  destruct (group_send_spec E CHAT_GROUP (signal_event c u)
    (set_messages (messages w ++ [mkMessage (pk u) c (clock w)]) w))
    as (w1 & -> & _ & Hm1 & _ & _ & Hs1 & Hw1).
  cbn [fst snd]. rewrite Hm1, Hs1. repeat split; try done.
  - intros member s Hin Hs Hopen. rewrite Hw1, dispatch_sessions.
    rewrite decide_True by done. cbn [sessions set_sent set_messages].
    rewrite Hs. unfold handled.
    by rewrite consumer_dispatch_live.
  - unfold Message_save. by rewrite Hup.
  - unfold Message_save. by rewrite Hup.
  - unfold Message_save. by rewrite Hup.
Qed.

(** C7: [disconnect] is idempotent.  It never raises; a second
    [disconnect] of the same member right after the first leaves the world
    as the first one left it; and a [disconnect] of a member that is not in
    the room leaves the world as it was. *)
Theorem disconnect_idempotent channel_name code code' w :
  (disconnect channel_name code w).1 = Ret tt
  ∧ disconnect channel_name code' (disconnect channel_name code w).2
    = (Ret tt, (disconnect channel_name code w).2)
  ∧ (channel_name ∉ membersOf CHAT_GROUP (disconnect channel_name code w).2)
  ∧ (channel_name ∉ membersOf CHAT_GROUP w →
     disconnect channel_name code w = (Ret tt, w)).
Proof.
  unfold disconnect. rewrite !channel_layer_call_configured.
  unfold group_discard. cbn [fst snd].
  assert (channel_name ∉ membersOf CHAT_GROUP (leave CHAT_GROUP channel_name w))
    as Hgone.
  { rewrite membersOf_leave, elem_of_difference, elem_of_singleton.
    naive_solver. }
  repeat split; [by rewrite leave_absent|done|].
  intros Habsent. by rewrite leave_absent.
Qed.

(** C8: dispatching an event to a room delivers the same frame to every
    member whose connection is live at dispatch time, whatever happens to
    the other members: a member whose delivery fails drops out of the room
    and its consumer is left as it was; the live members stay in the room
    with the frame appended to what they were sent; consumers outside the
    room are not touched. *)
Theorem dispatch_reaches_every_live_member room event w :
  ev_type event = lit "chat_message" →
  (∀ c s, c ∈ membersOf room w →
          sessions w !! c = Some s →
          transport_open s = true →
          sessions (dispatch E room event w) !! c
          = Some (mkSession true (outbox s ++ [event_frame E event]))
          ∧ c ∈ membersOf room (dispatch E room event w))
  ∧ (∀ c, c ∈ membersOf room w →
          (∀ s, sessions w !! c = Some s → transport_open s = false) →
          (c ∉ membersOf room (dispatch E room event w))
          ∧ sessions (dispatch E room event w) !! c = sessions w !! c)
  ∧ (∀ c, c ∉ membersOf room w →
          (c ∉ membersOf room (dispatch E room event w))
          ∧ sessions (dispatch E room event w) !! c = sessions w !! c).
Proof.
  intros Hty. split; [|split].
  - intros c s Hin Hs Hopen. split.
    + rewrite dispatch_sessions, decide_True by done.
      rewrite Hs. unfold handled. by rewrite consumer_dispatch_live.
    + rewrite dispatch_members. split; [done|].
      rewrite Hs. unfold accepts. by rewrite consumer_dispatch_live.
  - intros c Hin Hdead. split.
    + rewrite dispatch_members. intros [_ Hacc].
      destruct (sessions w !! c) as [s|] eqn:Hs; [|done].
      destruct (consumer_dispatch_dead E event s) as [e He]; [by apply Hdead|].
      unfold accepts in Hacc. by rewrite He in Hacc.
    + rewrite dispatch_sessions, decide_True by done.
      destruct (sessions w !! c) as [s|] eqn:Hs; [|done].
      destruct (consumer_dispatch_dead E event s) as [e He]; [by apply Hdead|].
      unfold handled. by rewrite He.
  - intros c Hout. split.
    + rewrite dispatch_members. naive_solver.
    + by rewrite dispatch_sessions, decide_False.
Qed.

End Claims.

(** ** The chat page *)

Global Instance newer_first_trans : Transitive newer_first.
Proof. intros a b c. unfold newer_first. lia. Qed.

Global Instance newer_first_total : Total newer_first.
Proof. intros a b. unfold newer_first. lia. Qed.

Global Instance older_first_trans : Transitive older_first.
Proof. intros a b c. unfold older_first. lia. Qed.

(** C9: the chat page shows at most 50 messages (all of them when there are
    fewer), oldest first, and they are the most recent ones: the stored
    messages are those of the page together with others, none of which is
    newer than a message of the page. *)
Theorem chat_page_last_50 w :
  (length (ChatPageView_get w) ≤ 50)%nat
  ∧ length (ChatPageView_get w) = (50 `min` length (messages w))%nat
  ∧ StronglySorted older_first (ChatPageView_get w)
  ∧ ∃ older,
      messages w ≡ₚ older ++ ChatPageView_get w
      ∧ ∀ m r, m ∈ older → r ∈ ChatPageView_get w →
               (timestamp m ≤ timestamp r)%N.
Proof.
  unfold ChatPageView_get.
  pose proof (StronglySorted_merge_sort newer_first (messages w)) as Hsorted.
  pose proof (merge_sort_Permutation newer_first (messages w)) as Hperm.
  set (sorted := merge_sort newer_first (messages w)) in *.
  rewrite <- (take_drop 50 sorted) in Hsorted.
  assert (length (reverse (take 50 sorted))
          = (50 `min` length (messages w))%nat) as Hlen.
  { by rewrite length_reverse, length_take, <- Hperm. }
  split; [lia|]. split; [done|]. split.
  - apply (Sorted_StronglySorted older_first).
    apply (Sorted_reverse newer_first), StronglySorted_Sorted.
    by eapply StronglySorted_app_1_l.
  - exists (drop 50 sorted). split.
    + rewrite <- Hperm, <- (take_drop 50 sorted) at 1.
      by rewrite reverse_Permutation, (comm (++)).
    + intros m r Hm Hr. rewrite elem_of_reverse in Hr.
      by apply (StronglySorted_app_1_elem_of newer_first _ _ r m Hsorted).
Qed.

(** ** Stored messages name existing users *)

Section StoreInvariant.
Variable E : Env.

Lemma tables_kept_senders_exist w w' :
  tables_kept w w' → senders_exist w → senders_exist w'.
Proof.
  intros [Hu Hm] Hinv m. rewrite Hu.
  destruct Hm as [->|(u & c & Hrow & ->)]; [by apply Hinv|].
  rewrite elem_of_app, list_elem_of_singleton.
  intros [Hin| ->]; [by apply Hinv|]. simpl. by rewrite Hrow.
Qed.

Lemma same_store_tables_kept w w' : same_store w w' → tables_kept w w'.
Proof. intros (Hu & Hm & _). split; [done|by left]. Qed.

Lemma save_message_tables_kept sender_id c w :
  tables_kept w (save_message E sender_id c w).2.
Proof.
  unfold save_message, try_except, bind.
  destruct (User_objects_get E sender_id w) as [[u|e] w1] eqn:Hget.
  - apply User_objects_get_Ret in Hget as [Hrow ->].
    destruct (store_up w) eqn:Hup.
    + rewrite Message_objects_create_up by done.
      destruct (group_send_spec E CHAT_GROUP (signal_event c u)
        (set_messages (messages w ++ [mkMessage (pk u) c (clock w)]) w))
        as (w1 & -> & Hu1 & Hm1 & _). cbn [fst snd].
      split; [done|]. right. by exists u, c.
    + rewrite Message_objects_create_down by done.
      rewrite bool_decide_eq_false_2; [by split; [|left]|].
      by intros [?|?%elem_of_nil]%elem_of_cons.
  - pose proof (User_objects_get_world E sender_id w) as Hw.
    rewrite Hget in Hw. simpl in Hw. subst w1.
    case_bool_decide; by split; [|left].
Qed.

Lemma receive_tables_kept text w : tables_kept w (receive E text w).2.
Proof.
  destruct (json_loads E text) as [v|] eqn:Hloads.
  2:{ rewrite receive_undecodable by done. by split; [|left]. }
  destruct v as [| | | | | |d].
  all: try (unfold receive, bind, try_except, lift;
            rewrite Hloads; by split; [|left]).
  destruct (default (JStr []) (d !! lit "message")) as [| | | |m| |] eqn:Hmsg.
  all: try (unfold receive, bind, try_except, lift;
            rewrite Hloads; simpl; rewrite Hmsg; by split; [|left]).
  rewrite (receive_decoded E text d m w Hloads Hmsg).
  case_bool_decide; [by split; [|left]|].
  unfold bind.
  pose proof (save_message_tables_kept
                (default JNull (d !! lit "sender_id")) (strip m) w) as Hsave.
  destruct (save_message E (default JNull (d !! lit "sender_id")) (strip m) w)
    as [[se|e] w1]; [|done].
  destruct (group_send_spec E CHAT_GROUP (receive_event (strip m) se) w1)
    as (w2 & -> & Hu2 & Hm2 & _). cbn [fst snd] in *.
  destruct Hsave as [Hu1 Hm1]. split; [congruence|].
  by rewrite Hm2.
Qed.

End StoreInvariant.

Lemma connect_same_store channel_name w :
  same_store w (connect channel_name w).2.
Proof.
  unfold connect, bind. rewrite channel_layer_call_configured.
  unfold group_add, join. cbn [fst snd].
  case_decide; by repeat split.
Qed.

Lemma disconnect_same_store channel_name code w :
  same_store w (disconnect channel_name code w).2.
Proof.
  unfold disconnect. rewrite channel_layer_call_configured.
  apply leave_same_store.
Qed.

Lemma User_delete_senders_exist k w :
  senders_exist w → senders_exist (User_delete k w).
Proof.
  intros Hinv m. unfold User_delete. cbn [messages users set_messages set_users].
  rewrite list_elem_of_filter. intros [Hne Hin].
  rewrite lookup_delete_ne by done. by apply Hinv.
Qed.

Lemma step_senders_exist E w o :
  senders_exist w → senders_exist (step E w o).
Proof.
  destruct o as [c|c code|text|k]; cbn [step].
  - apply tables_kept_senders_exist, same_store_tables_kept,
      connect_same_store.
  - apply tables_kept_senders_exist, same_store_tables_kept,
      disconnect_same_store.
  - apply tables_kept_senders_exist, receive_tables_kept.
  - apply User_delete_senders_exist.
Qed.

(** C10: every persisted message has a sender that is a row of the user
    table.  The sender column holds a key, never a null; [receive] appends
    a row only for a user its lookup found, and deleting a user deletes the
    user's messages.  So the property, once true, stays true along every
    run of connects, disconnects, received frames and user deletions. *)
Theorem run_senders_exist E ops w :
  senders_exist w → senders_exist (run E ops w).
Proof.
  unfold run. revert w.
  induction ops as [|o ops IH]; intros w Hinv; cbn [foldl]; [done|].
  by apply IH, step_senders_exist.
Qed.

(** * The claims on the sample world *)

(** The frame [{"message": "hello", "sender_id": 1}], received while user 1
    exists: two events carrying "hello" are issued. *)
Lemma receive_broadcasts_twice_witness :
  sent (receive Sample.env Sample.frame_hello Sample.world).2
  = [(CHAT_GROUP, signal_event (lit "hello") Sample.alice);
     (CHAT_GROUP,
      receive_event (lit "hello") (Some (email Sample.alice)))].
Proof.
  refine (proj1 (proj2 (proj2
    (receive_broadcasts_twice Sample.env Sample.frame_hello
       {[ lit "message" := JStr (lit "hello"); lit "sender_id" := JInt 1 ]}
       (lit "hello") Sample.alice Sample.world _ _ _ _ _)))).
  - reflexivity.
  - reflexivity.
  - vm_compute. discriminate.
  - reflexivity.
  - reflexivity.
Defined.

(** The claim of C2 fails on the code: with no user 99, the frame
    [{"message": "hello", "sender_id": 99}] is received without an error
    and no message is persisted for it. *)
Lemma unknown_sender_not_persisted :
  User_objects_get Sample.env (JInt 99) Sample.world
  = (Raise DoesNotExist, Sample.world)
  ∧ (receive Sample.env Sample.frame_stranger Sample.world).1 = Ret tt
  ∧ ¬ (∃ m, m ∈ messages
                  (receive Sample.env Sample.frame_stranger Sample.world).2).
Proof.
  split; [reflexivity|]. split; [reflexivity|].
  intros [m Hm].
  assert (messages (receive Sample.env Sample.frame_stranger Sample.world).2
          = []) as Hnone by (vm_compute; reflexivity).
  rewrite Hnone in Hm. by apply elem_of_nil in Hm.
Qed.

(** The same frame: nothing is persisted, and one event is issued. *)
Lemma receive_unknown_sender_witness :
  messages (receive Sample.env Sample.frame_stranger Sample.world).2 = []
  ∧ sent (receive Sample.env Sample.frame_stranger Sample.world).2
    = [(CHAT_GROUP, receive_event (lit "hello") None)].
Proof.
  pose proof (receive_unknown_sender Sample.env Sample.frame_stranger
    {[ lit "message" := JStr (lit "hello"); lit "sender_id" := JInt 99 ]}
    (lit "hello") Sample.world) as H.
  destruct H as (_ & Hm & Hs & _).
  - reflexivity.
  - reflexivity.
  - vm_compute. discriminate.
  - reflexivity.
  - split; [exact Hm|exact Hs].
Defined.

(** The frame [[]], which decodes to an empty list, makes [receive]
    raise. *)
Lemma receive_non_object_raises_witness :
  receive Sample.env Sample.frame_list Sample.world
  = (Raise AttributeError, Sample.world).
Proof.
  apply (receive_non_object_raises Sample.env Sample.frame_list (JList [])).
  - reflexivity.
  - intros d. discriminate.
Defined.

(** The claim of C4 fails on the code: with the store down, the append
    raises and [receive] raises with it instead of returning. *)
Lemma store_failure_raises :
  Message_objects_create Sample.env Sample.alice (lit "hello")
    Sample.world_store_down
  = (Raise OperationalError, Sample.world_store_down)
  ∧ (receive Sample.env Sample.frame_hello Sample.world_store_down).1
    ≠ Ret tt.
Proof.
  split; [reflexivity|].
  assert ((receive Sample.env Sample.frame_hello Sample.world_store_down).1
          = Raise OperationalError) as -> by (vm_compute; reflexivity).
  discriminate.
Qed.

(** The same world and frame: [receive] raises what the append raised. *)
Lemma receive_store_failure_witness :
  receive Sample.env Sample.frame_hello Sample.world_store_down
  = (Raise OperationalError, Sample.world_store_down).
Proof.
  refine (proj1
    (receive_store_failure Sample.env Sample.frame_hello
       {[ lit "message" := JStr (lit "hello"); lit "sender_id" := JInt 1 ]}
       (lit "hello") Sample.alice Sample.world_store_down
       OperationalError Sample.world_store_down _ _ _ _ _)).
  - reflexivity.
  - reflexivity.
  - vm_compute. discriminate.
  - reflexivity.
  - reflexivity.
Defined.

(** The frame [{"message": "  ", "sender_id": 1}] is dropped. *)
Lemma receive_blank_discarded_witness :
  receive Sample.env Sample.frame_blank Sample.world = (Ret tt, Sample.world).
Proof.
  refine (proj1
    (receive_blank_discarded Sample.env Sample.frame_blank
       {[ lit "message" := JStr (lit "  "); lit "sender_id" := JInt 1 ]}
       Sample.world _ _)).
  - reflexivity.
  - right. exists (lit "  "). split; reflexivity.
Defined.

(** A message created for user 1 in the sample world: one event is
    issued, and [chan_b] is written the frame. *)
Lemma created_message_broadcast_once_witness :
  sent (Message_objects_create Sample.env Sample.alice (lit "hi")
          Sample.world).2
  = [(CHAT_GROUP, signal_event (lit "hi") Sample.alice)]
  ∧ sessions (Message_objects_create Sample.env Sample.alice (lit "hi")
                Sample.world).2 !! Sample.chan_b
    = Some (mkSession true
              [event_frame Sample.env
                 (signal_event (lit "hi") Sample.alice)]).
Proof.
  pose proof (created_message_broadcast_once Sample.env Sample.alice
                (lit "hi") Sample.world eq_refl)
    as (_ & _ & Hsent & _ & Hmembers & _).
  split; [exact Hsent|].
  apply (Hmembers Sample.chan_b (mkSession true [])).
  - apply (bool_decide_unpack _). vm_compute. exact I.
  - reflexivity.
  - reflexivity.
Defined.

(** A channel that never joined the room disconnects: nothing changes. *)
Lemma disconnect_idempotent_witness :
  disconnect (lit "specific.z") 1001 Sample.world = (Ret tt, Sample.world).
Proof.
  apply (disconnect_idempotent (lit "specific.z") 1001 1001 Sample.world).
  apply (bool_decide_unpack _). vm_compute. exact I.
Defined.

(** In the world where the connection of [chan_a] is gone, [chan_b] is
    written the frame and stays in the room. *)
Lemma dispatch_reaches_every_live_member_witness :
  sessions (dispatch Sample.env CHAT_GROUP
              (signal_event (lit "hi") Sample.alice) Sample.world_a_dead)
    !! Sample.chan_b
  = Some (mkSession true
            [event_frame Sample.env (signal_event (lit "hi") Sample.alice)])
  ∧ Sample.chan_b
    ∈ membersOf CHAT_GROUP
        (dispatch Sample.env CHAT_GROUP
           (signal_event (lit "hi") Sample.alice) Sample.world_a_dead).
Proof.
  apply (proj1 (dispatch_reaches_every_live_member Sample.env CHAT_GROUP
                  (signal_event (lit "hi") Sample.alice) Sample.world_a_dead
                  eq_refl)
           Sample.chan_b (mkSession true [])).
  - apply (bool_decide_unpack _). vm_compute. exact I.
  - reflexivity.
  - reflexivity.
Defined.

(** A run of the sample world: user 1 submits a message and is then
    deleted, and a stranger submits one. *)
Lemma run_senders_exist_witness :
  senders_exist
    (run Sample.env
       [OpReceive Sample.frame_hello; OpDeleteUser 1;
        OpReceive Sample.frame_stranger] Sample.world).
Proof.
  apply (run_senders_exist Sample.env).
  intros m Hm. exfalso. exact (proj1 (elem_of_nil m) Hm).
Defined.

(** ** More of the sample world *)

(** An object with a message and no [sender_id] is not dropped: nothing is
    persisted, and the message is broadcast as "Anonymous". *)
Example receive_frame_without_sender :
  (receive Sample.env Sample.frame_no_sender Sample.world).1 = Ret tt
  ∧ messages (receive Sample.env Sample.frame_no_sender Sample.world).2 = []
  ∧ sent (receive Sample.env Sample.frame_no_sender Sample.world).2
    = [(CHAT_GROUP, receive_event (lit "hi") None)].
Proof. vm_compute. done. Qed.

(** A text that does not decode is dropped. *)
Example receive_frame_garbage :
  receive Sample.env Sample.frame_garbage Sample.world
  = (Ret tt, Sample.world).
Proof. by apply receive_undecodable. Qed.

(** Both clients of the sample room are written the submitted message
    twice. *)
Example receive_frame_hello_outboxes :
  outbox <$> sessions (receive Sample.env Sample.frame_hello Sample.world).2
  = {[ Sample.chan_a :=
         [event_frame Sample.env (signal_event (lit "hello") Sample.alice);
          event_frame Sample.env (signal_event (lit "hello") Sample.alice)];
       Sample.chan_b :=
         [event_frame Sample.env (signal_event (lit "hello") Sample.alice);
          event_frame Sample.env (signal_event (lit "hello") Sample.alice)] ]}.
Proof. by vm_compute. Qed.

(** Three stored messages come out oldest first. *)
Example chat_page_sample :
  ChatPageView_get
    (set_messages [mkMessage 1 (lit "b") 20; mkMessage 1 (lit "c") 30;
                   mkMessage 1 (lit "a") 10] Sample.world)
  = [mkMessage 1 (lit "a") 10; mkMessage 1 (lit "b") 20;
     mkMessage 1 (lit "c") 30].
Proof. reflexivity. Qed.

(** * More of the chat path *)

(** ** What [str.strip] leaves *)

Lemma lstrip_head (s : str) c t : lstrip s = c :: t → isspace c = false.
Proof.
  induction s as [|a s IH]; simpl; [done|].
  destruct (isspace a) eqn:Ha; [exact IH|]. by intros [= <- <-].
Qed.

Lemma lstrip_snoc_nonspace (l : str) c :
  isspace c = false → ∃ l', lstrip (l ++ [c]) = l' ++ [c].
Proof.
  intros Hc. induction l as [|a l [l' IH]]; simpl.
  - rewrite Hc. by exists [].
  - destruct (isspace a); [by exists l'|by exists (a :: l)].
Qed.

Lemma strip_head (s : str) c : head (strip s) = Some c → isspace c = false.
Proof.
  unfold strip, rstrip.
  destruct (lstrip s) as [|c0 t] eqn:Ht; [done|].
  apply lstrip_head in Ht.
  rewrite reverse_cons.
  destruct (lstrip_snoc_nonspace (reverse t) c0 Ht) as [l' ->].
  rewrite reverse_app. simpl. by intros [= <-].
Qed.

Lemma strip_last (s : str) c : last (strip s) = Some c → isspace c = false.
Proof.
  unfold strip, rstrip. rewrite last_reverse.
  destruct (lstrip (reverse (lstrip s))) as [|c0 t] eqn:Ht; [done|].
  simpl. intros [= <-]. by eapply lstrip_head.
Qed.

Lemma strip_trimmed (s : str) : strip s ≠ [] → trimmed (strip s).
Proof.
  intros Hne. split; [done|]. split; [apply strip_head|apply strip_last].
Qed.

(** ** Every way [save_message] and [receive] can end *)

Section Outcomes.
Variable E : Env.

Lemma save_message_outcome sender_id c w :
  (save_message E sender_id c w = (Ret None, w)
   ∧ User_objects_get E sender_id w = (Raise DoesNotExist, w))
  ∨ (∃ e, save_message E sender_id c w = (Raise e, w))
  ∨ (∃ u, users w !! pk u = Some (email u)
          ∧ store_up w = true
          ∧ save_message E sender_id c w
            = (Ret (Some (email u)),
               (group_send E CHAT_GROUP (signal_event c u)
                  (set_messages
                     (messages w ++ [mkMessage (pk u) c (clock w)]) w)).2)).
Proof.
  destruct (User_objects_get E sender_id w) as [[u|e] w1] eqn:Hget.
  - apply User_objects_get_Ret in Hget as Hrow. destruct Hrow as [Hrow ->].
    destruct (store_up w) eqn:Hup.
    + right; right. exists u. by rewrite (save_message_found E _ _ u).
    + right; left. exists OperationalError.
      by rewrite (save_message_store_down E _ _ u).
  - pose proof (User_objects_get_world E sender_id w) as Hw.
    rewrite Hget in Hw. simpl in Hw. subst w1.
    destruct (decide (e = DoesNotExist)) as [->|Hne].
    + left. by rewrite save_message_unknown.
    + right; left. exists e.
      unfold save_message, try_except, bind. rewrite Hget.
      rewrite bool_decide_eq_false_2; [done|].
      by intros [?|?%elem_of_nil]%elem_of_cons.
Qed.

Lemma receive_outcome text w :
  receive E text w = (Ret tt, w)
  ∨ (∃ e, receive E text w = (Raise e, w))
  ∨ (∃ m, strip m ≠ []
          ∧ (receive E text w).1 = Ret tt
          ∧ users (receive E text w).2 = users w
          ∧ messages (receive E text w).2 = messages w
          ∧ sent (receive E text w).2
            = sent w ++ [(CHAT_GROUP, receive_event (strip m) None)])
  ∨ (∃ m u, strip m ≠ []
            ∧ users w !! pk u = Some (email u)
            ∧ (receive E text w).1 = Ret tt
            ∧ users (receive E text w).2 = users w
            ∧ messages (receive E text w).2
              = messages w ++ [mkMessage (pk u) (strip m) (clock w)]
            ∧ sent (receive E text w).2
              = sent w
                ++ [(CHAT_GROUP, signal_event (strip m) u);
                    (CHAT_GROUP,
                     receive_event (strip m) (Some (email u)))]).
Proof.
  destruct (json_loads E text) as [v|] eqn:Hloads.
  2:{ left. by apply receive_undecodable. }
  destruct v as [| | | | | |d].
  all: try (right; left; exists AttributeError;
            unfold receive, bind, try_except, lift; by rewrite Hloads).
  destruct (default (JStr []) (d !! lit "message")) as [| | | |m| |] eqn:Hmsg.
  all: try (right; left; exists AttributeError;
            unfold receive, bind, try_except, lift;
            rewrite Hloads; simpl; by rewrite Hmsg).
  rewrite (receive_decoded E text d m w Hloads Hmsg).
  case_bool_decide as Hc; [by left|]. unfold bind.
  destruct (save_message_outcome (default JNull (d !! lit "sender_id"))
              (strip m) w) as [[-> _]|[[e ->]|(u & Hrow & Hup & ->)]].
  - right; right; left. exists m. split; [done|].
    destruct (group_send_spec E CHAT_GROUP (receive_event (strip m) None) w)
      as (w1 & -> & Hu1 & Hm1 & _ & _ & Hs1 & _).
    by cbn [fst snd].
  - right; left. by exists e.
  - right; right; right. exists m, u. split; [done|]. split; [done|].
    destruct (group_send_spec E CHAT_GROUP (signal_event (strip m) u)
      (set_messages (messages w ++ [mkMessage (pk u) (strip m) (clock w)]) w))
      as (w1 & -> & Hu1 & Hm1 & _ & _ & Hs1 & _).
    cbn [fst snd].
    destruct (group_send_spec E CHAT_GROUP
      (receive_event (strip m) (Some (email u))) w1)
      as (w2 & -> & Hu2 & Hm2 & _ & _ & Hs2 & _).
    cbn [fst snd]. rewrite Hu2, Hu1, Hm2, Hm1, Hs2, Hs1. simpl.
    by rewrite <- app_assoc.
Qed.

End Outcomes.

(** ** Delivery to a live member *)

Section Delivery.
Variable E : Env.

Lemma group_send_live_member group event w c s :
  ev_type event = lit "chat_message" →
  c ∈ membersOf group w →
  sessions w !! c = Some s →
  transport_open s = true →
  sessions (group_send E group event w).2 !! c
  = Some (mkSession true (outbox s ++ [event_frame E event]))
  ∧ c ∈ membersOf group (group_send E group event w).2.
Proof.
  intros Hty Hin Hs Hopen. unfold group_send. cbn [fst snd].
  split.
  - rewrite dispatch_sessions, decide_True by done.
    cbn [sessions set_sent]. rewrite Hs. unfold handled.
    by rewrite consumer_dispatch_live.
  - rewrite dispatch_members. split; [done|].
    cbn [sessions set_sent]. rewrite Hs. unfold accepts.
    by rewrite consumer_dispatch_live.
Qed.

End Delivery.

(** ** Frames that [receive] turns down *)

Section ChatExtras.
Variable E : Env.


(** X2: an object whose ['message'] is present and not a string (a number,
    [null], a list, ...) makes [receive] raise [AttributeError] at
    [.strip()]; nothing is stored or broadcast. *)
Theorem non_text_message_raises text d v w :
  json_loads E text = Some (JDict d) →
  d !! lit "message" = Some v →
  (∀ s, v ≠ JStr s) →
  receive E text w = (Raise AttributeError, w).
Proof.
  intros Hloads Hmsg Hv. unfold receive, bind, try_except, lift.
  rewrite Hloads. simpl. rewrite Hmsg. simpl.
  destruct v; try reflexivity. by destruct (Hv s).
Qed.

(** X3: [save_message] catches [User.DoesNotExist] only: when the lookup of
    the sender raises anything else (a [sender_id] the key field rejects),
    the exception leaves [receive], and nothing is stored or broadcast. *)
Theorem lookup_error_propagates text d m e w :
  json_loads E text = Some (JDict d) →
  d !! lit "message" = Some (JStr m) →
  strip m ≠ [] →
  get_prep_value E (default JNull (d !! lit "sender_id")) = Raise e →
  e ≠ DoesNotExist →
  receive E text w = (Raise e, w).
Proof.
  intros Hloads Hmsg Hc Hprep Hne.
  rewrite (receive_decoded E text d m w Hloads) by (by rewrite Hmsg).
  rewrite bool_decide_eq_false_2 by done.
  unfold bind, save_message, try_except, bind, User_objects_get.
  rewrite Hprep. rewrite bool_decide_eq_false_2; [done|].
  by intros [?|?%elem_of_nil]%elem_of_cons.
Qed.

(** X4: when [receive] raises, it has changed nothing: no message stored,
    no event issued, no frame written, no member dropped. *)
Theorem receive_raise_changes_nothing text w e w' :
  receive E text w = (Raise e, w') → w' = w.
Proof.
  intros Hraise.
  destruct (receive_outcome E text w)
    as [Hr|[[e' Hr]|[(m & _ & Hr & _)|(m & u & _ & _ & Hr & _)]]];
    rewrite Hraise in Hr; try discriminate.
  by injection Hr.
Qed.

(** X5: [receive] never touches the user table, and the message table only
    grows: at most one row is appended, stamped with the current time,
    naming an existing user, with a trimmed content. *)
Theorem receive_appends_at_most_one text w :
  users (receive E text w).2 = users w
  ∧ ∃ new,
      messages (receive E text w).2 = messages w ++ new
      ∧ (length new ≤ 1)%nat
      ∧ ∀ m, m ∈ new →
             is_Some (users w !! sender m)
             ∧ timestamp m = clock w
             ∧ trimmed (content m).
Proof.
  destruct (receive_outcome E text w)
    as [Hr|[[e' Hr]|[(m & Hc & _ & Hu & Hm & _)
                    |(m & u & Hc & Hrow & _ & Hu & Hm & _)]]].
  - rewrite Hr. split; [done|]. exists []. rewrite app_nil_r.
    split; [done|]. split; [simpl; lia|]. by intros ? ?%elem_of_nil.
  - rewrite Hr. split; [done|]. exists []. rewrite app_nil_r.
    split; [done|]. split; [simpl; lia|]. by intros ? ?%elem_of_nil.
  - split; [done|]. exists []. rewrite app_nil_r.
    split; [done|]. split; [simpl; lia|]. by intros ? ?%elem_of_nil.
  - split; [done|]. eexists. split; [exact Hm|]. split; [simpl; lia|].
    intros m' ->%list_elem_of_singleton. simpl.
    rewrite Hrow. split; [done|]. split; [done|]. by apply strip_trimmed.
Qed.

(** X6: what [receive] broadcasts follows what it stores.  If it stores a
    message it issues exactly two events, both carrying the stored content;
    if it stores nothing it issues at most one event. *)
Theorem receive_broadcasts_follow_persistence text w :
  ∃ new_messages new_events,
    messages (receive E text w).2 = messages w ++ new_messages
    ∧ sent (receive E text w).2 = sent w ++ new_events
    ∧ ((new_messages = [] ∧ (length new_events ≤ 1)%nat)
       ∨ ∃ m, new_messages = [m]
              ∧ length new_events = 2%nat
              ∧ ∀ g event, (g, event) ∈ new_events →
                           ev_message event = content m).
Proof.
  destruct (receive_outcome E text w)
    as [Hr|[[e' Hr]|[(m & Hc & _ & Hu & Hm & Hs)
                    |(m & u & Hc & Hrow & _ & Hu & Hm & Hs)]]].
  - exists [], []. rewrite Hr, !app_nil_r.
    split; [done|]. split; [done|]. left. split; [done|simpl; lia].
  - exists [], []. rewrite Hr, !app_nil_r.
    split; [done|]. split; [done|]. left. split; [done|simpl; lia].
  - exists [], [(CHAT_GROUP, receive_event (strip m) None)].
    rewrite app_nil_r.
    split; [done|]. split; [done|]. left. split; [done|simpl; lia].
  - eexists _, _. split; [exact Hm|]. split; [exact Hs|]. right.
    eexists. split; [done|]. split; [done|].
    intros g event Hin.
    apply elem_of_cons in Hin as [[= -> ->]|Hin]; [done|].
    by apply list_elem_of_singleton in Hin as [= -> ->].
Qed.

(** X7: every event [receive] issues, whatever the frame, goes to the group
    ['chat_room'], has the type ['chat_message'] that [chat_message]
    handles, and carries a trimmed, non-empty message. *)
Theorem receive_events_well_formed text w :
  ∃ new_events,
    sent (receive E text w).2 = sent w ++ new_events
    ∧ ∀ g event, (g, event) ∈ new_events →
                 g = CHAT_GROUP
                 ∧ ev_type event = lit "chat_message"
                 ∧ trimmed (ev_message event).
Proof.
  destruct (receive_outcome E text w)
    as [Hr|[[e' Hr]|[(m & Hc & _ & Hu & Hm & Hs)
                    |(m & u & Hc & Hrow & _ & Hu & Hm & Hs)]]].
  - exists []. rewrite Hr, app_nil_r. split; [done|].
    by intros ?? ?%elem_of_nil.
  - exists []. rewrite Hr, app_nil_r. split; [done|].
    by intros ?? ?%elem_of_nil.
  - eexists. split; [exact Hs|].
    intros g event [= -> ->]%list_elem_of_singleton.
    split; [done|]. split; [done|]. by apply strip_trimmed.
  - eexists. split; [exact Hs|].
    intros g event Hin.
    apply elem_of_cons in Hin as [[= -> ->]|Hin];
      [|apply list_elem_of_singleton in Hin as [= -> ->]];
      (split; [done|]; split; [done|]; by apply strip_trimmed).
Qed.

(** X8: what [save_message] returns tells what it did.  [None]: the sender
    does not exist and the world is as it was.  An email: it is the email
    of an existing user, and one message of that user with the given text
    was appended. *)
Theorem save_message_reports_persistence sender_id c w r w' :
  save_message E sender_id c w = (Ret r, w') →
  match r with
  | None =>
      w' = w ∧ User_objects_get E sender_id w = (Raise DoesNotExist, w)
  | Some e =>
      ∃ u, email u = e
           ∧ users w !! pk u = Some e
           ∧ users w' = users w
           ∧ messages w' = messages w ++ [mkMessage (pk u) c (clock w)]
  end.
Proof.
  intros Hsave.
  destruct (save_message_outcome E sender_id c w)
    as [[Hr Hget]|[[e Hr]|(u & Hrow & Hup & Hr)]];
    rewrite Hsave in Hr; try discriminate.
  - by injection Hr as -> ->.
  - destruct (group_send_spec E CHAT_GROUP (signal_event c u)
      (set_messages (messages w ++ [mkMessage (pk u) c (clock w)]) w))
      as (w1 & Hsend & Hu1 & Hm1 & _).
    rewrite Hsend in Hr. cbn [fst snd] in Hr.
    injection Hr as -> ->. by exists u.
Qed.

End ChatExtras.

(** ** Stored contents are trimmed *)

Lemma same_store_contents_trimmed w w' :
  same_store w w' → contents_trimmed w → contents_trimmed w'.
Proof. intros (_ & Hm & _) Hinv m. rewrite Hm. apply Hinv. Qed.

Lemma receive_contents_trimmed E text w :
  contents_trimmed w → contents_trimmed (receive E text w).2.
Proof.
  intros Hinv.
  destruct (receive_outcome E text w)
    as [Hr|[[e' Hr]|[(m & Hc & _ & _ & Hm & _)
                    |(m & u & Hc & _ & _ & _ & Hm & _)]]].
  - by rewrite Hr.
  - by rewrite Hr.
  - intros m'. rewrite Hm. apply Hinv.
  - intros m'. rewrite Hm, elem_of_app, list_elem_of_singleton.
    intros [Hin| ->]; [by apply Hinv|]. by apply strip_trimmed.
Qed.

(** X9: every message stored through the chat path has a content that is
    not empty and neither starts nor ends with whitespace; the property is
    kept along every run of connects, disconnects, received frames and
    user deletions. *)
Theorem run_contents_trimmed E ops w :
  contents_trimmed w → contents_trimmed (run E ops w).
Proof.
  unfold run. revert w.
  induction ops as [|o ops IH]; intros w Hinv; cbn [foldl]; [done|].
  apply IH. destruct o as [c|c code|text|k]; cbn [step].
  - by eapply same_store_contents_trimmed; [apply connect_same_store|].
  - by eapply same_store_contents_trimmed; [apply disconnect_same_store|].
  - by apply receive_contents_trimmed.
  - intros m. unfold User_delete. cbn [messages set_messages set_users].
    rewrite list_elem_of_filter. intros [_ Hin]. by apply Hinv.
Qed.

Section ChatDelivery.
Variable E : Env.

(** X10: the two events issued for a stored message differ at most in the
    sender they show: they are the same event unless the sender's email is
    empty, in which case the one sent from [post_save] shows the empty
    email and the one sent by [receive] shows "Anonymous". *)
Theorem duplicate_events_compared text d m u w :
  json_loads E text = Some (JDict d) →
  d !! lit "message" = Some (JStr m) →
  strip m ≠ [] →
  User_objects_get E (default JNull (d !! lit "sender_id")) w = (Ret u, w) →
  store_up w = true →
  ∃ first second,
    sent (receive E text w).2
    = sent w ++ [(CHAT_GROUP, first); (CHAT_GROUP, second)]
    ∧ ev_type first = ev_type second
    ∧ ev_message first = ev_message second
    ∧ ev_sender first = email u
    ∧ (email u ≠ [] → second = first)
    ∧ (email u = [] → ev_sender second = lit "Anonymous").
Proof.
  intros Hloads Hmsg Hc Hget Hup.
  exists (signal_event (strip m) u),
         (receive_event (strip m) (Some (email u))).
  split.
  - rewrite (receive_decoded E text d m w Hloads) by (by rewrite Hmsg).
    rewrite bool_decide_eq_false_2 by done.
    unfold bind. rewrite (save_message_found E _ _ u) by done.
    destruct (group_send_spec E CHAT_GROUP (signal_event (strip m) u)
      (set_messages (messages w ++ [mkMessage (pk u) (strip m) (clock w)]) w))
      as (w1 & -> & _ & _ & _ & _ & Hs1 & _).
    cbn [fst snd].
    destruct (group_send_spec E CHAT_GROUP
      (receive_event (strip m) (Some (email u))) w1)
      as (w2 & -> & _ & _ & _ & _ & Hs2 & _).
    cbn [fst snd]. rewrite Hs2, Hs1. simpl. by rewrite <- app_assoc.
  - repeat split; try done.
    + intros Hne. unfold receive_event, signal_event, or_Anonymous.
      by destruct (email u).
    + intros ->. reflexivity.
Qed.

Lemma receive_live_member text d m u w c s :
  json_loads E text = Some (JDict d) →
  d !! lit "message" = Some (JStr m) →
  strip m ≠ [] →
  User_objects_get E (default JNull (d !! lit "sender_id")) w = (Ret u, w) →
  store_up w = true →
  c ∈ membersOf CHAT_GROUP w →
  sessions w !! c = Some s →
  transport_open s = true →
  sessions (receive E text w).2 !! c
  = Some (mkSession true
            (outbox s
             ++ [event_frame E (signal_event (strip m) u);
                 event_frame E
                   (receive_event (strip m) (Some (email u)))]))
  ∧ c ∈ membersOf CHAT_GROUP (receive E text w).2.
Proof.
  intros Hloads Hmsg Hc Hget Hup Hin Hs Hopen.
  rewrite (receive_decoded E text d m w Hloads) by (by rewrite Hmsg).
  rewrite bool_decide_eq_false_2 by done.
  unfold bind. rewrite (save_message_found E _ _ u) by done.
  destruct (group_send_live_member E CHAT_GROUP (signal_event (strip m) u)
    (set_messages (messages w ++ [mkMessage (pk u) (strip m) (clock w)]) w)
    c s eq_refl Hin Hs Hopen) as [Hs1 Hin1].
  destruct (group_send_spec E CHAT_GROUP (signal_event (strip m) u)
    (set_messages (messages w ++ [mkMessage (pk u) (strip m) (clock w)]) w))
    as (w1 & Hsend & _).
  rewrite Hsend in Hs1, Hin1 |- *. cbn [fst snd] in *.
  destruct (group_send_live_member E CHAT_GROUP
    (receive_event (strip m) (Some (email u))) w1 c _ eq_refl Hin1 Hs1
    eq_refl) as [Hs2 Hin2].
  cbn [outbox] in Hs2. rewrite <- app_assoc in Hs2. by split.
Qed.

(** X11: a stored message is written twice to every member of the room
    whose connection is live: first the frame of the [post_save] event,
    then the frame of the event [receive] sends itself; the member stays in
    the room. *)
Theorem receive_delivers_twice text d m u w c s :
  json_loads E text = Some (JDict d) →
  d !! lit "message" = Some (JStr m) →
  strip m ≠ [] →
  User_objects_get E (default JNull (d !! lit "sender_id")) w = (Ret u, w) →
  store_up w = true →
  c ∈ membersOf CHAT_GROUP w →
  sessions w !! c = Some s →
  transport_open s = true →
  sessions (receive E text w).2 !! c
  = Some (mkSession true
            (outbox s
             ++ [event_frame E (signal_event (strip m) u);
                 event_frame E
                   (receive_event (strip m) (Some (email u)))]))
  ∧ c ∈ membersOf CHAT_GROUP (receive E text w).2.
Proof. apply receive_live_member. Qed.

Lemma membersOf_join room member w :
  membersOf room (join room member w) = membersOf room w ∪ {[member]}.
Proof.
  unfold join. case_decide as Hin.
  - apply set_eq. intros x. rewrite elem_of_union, elem_of_singleton.
    naive_solver.
  - unfold membersOf at 1. simpl. by rewrite lookup_insert_eq.
Qed.

Lemma membersOf_join_other room room' member w :
  room' ≠ room → membersOf room' (join room member w) = membersOf room' w.
Proof.
  intros Hne. unfold join. case_decide; [done|].
  unfold membersOf. simpl. by rewrite lookup_insert_ne.
Qed.

Lemma membersOf_leave_other room room' member w :
  room' ≠ room → membersOf room' (leave room member w) = membersOf room' w.
Proof.
  intros Hne. unfold leave. case_decide; [|done].
  unfold membersOf. simpl. by rewrite lookup_insert_ne.
Qed.

Lemma connect_world channel_name w :
  connect channel_name w
  = (Ret tt,
     set_sessions
       (<[channel_name := mkSession true []]>
          (sessions (join CHAT_GROUP channel_name w)))
       (join CHAT_GROUP channel_name w)).
Proof.
  unfold connect, bind. by rewrite channel_layer_call_configured.
Qed.

Lemma join_sessions room member w :
  sessions (join room member w) = sessions w.
Proof. unfold join. by case_decide. Qed.

(** X12: [connect] puts the consumer in the room ['chat_room'] with an
    open connection and nothing written yet, and touches no other member,
    consumer or group; a [disconnect] that follows takes exactly that
    consumer out of the room again. *)
Theorem connect_then_disconnect channel_name code w :
  (connect channel_name w).1 = Ret tt
  ∧ sessions (connect channel_name w).2 !! channel_name
    = Some (mkSession true [])
  ∧ (∀ c, c ≠ channel_name →
          sessions (connect channel_name w).2 !! c = sessions w !! c)
  ∧ (∀ c, c ∈ membersOf CHAT_GROUP (connect channel_name w).2
          ↔ c = channel_name ∨ c ∈ membersOf CHAT_GROUP w)
  ∧ (∀ c, c ∈ membersOf CHAT_GROUP
                (disconnect channel_name code (connect channel_name w).2).2
          ↔ c ≠ channel_name ∧ c ∈ membersOf CHAT_GROUP w)
  ∧ (∀ g, g ≠ CHAT_GROUP →
          membersOf g
            (disconnect channel_name code (connect channel_name w).2).2
          = membersOf g w).
Proof.
  rewrite connect_world. cbn [fst snd].
  unfold disconnect. rewrite channel_layer_call_configured.
  unfold group_discard. cbn [fst snd].
  split; [done|]. split; [|split; [|split; [|split]]].
  - cbn [sessions set_sessions]. by rewrite lookup_insert_eq.
  - intros c Hne. cbn [sessions set_sessions].
    by rewrite lookup_insert_ne, join_sessions.
  - intros c.
    change (membersOf CHAT_GROUP (set_sessions ?x ?y))
      with (membersOf CHAT_GROUP y).
    rewrite membersOf_join, elem_of_union, elem_of_singleton. naive_solver.
  - intros c. rewrite membersOf_leave, elem_of_difference, elem_of_singleton.
    change (membersOf CHAT_GROUP (set_sessions ?x ?y))
      with (membersOf CHAT_GROUP y).
    rewrite membersOf_join, elem_of_union, elem_of_singleton. naive_solver.
  - intros g Hne. rewrite membersOf_leave_other by done.
    change (membersOf g (set_sessions ?x ?y)) with (membersOf g y).
    by rewrite membersOf_join_other.
Qed.

Lemma User_objects_get_same_users value w w' u :
  users w' = users w →
  User_objects_get E value w = (Ret u, w) →
  User_objects_get E value w' = (Ret u, w').
Proof.
  intros Hu. unfold User_objects_get. rewrite Hu.
  destruct (get_prep_value E value) as [[k|]|]; [|done..].
  destruct (users w !! k); [|done]. by intros [= <-].
Qed.

(** X13: a client that has connected hears its own message: after
    [connect], a frame it submits that is stored is written back to it,
    twice, and these are the first frames it is written. *)
Theorem connected_client_hears_itself channel_name text d m u w :
  json_loads E text = Some (JDict d) →
  d !! lit "message" = Some (JStr m) →
  strip m ≠ [] →
  User_objects_get E (default JNull (d !! lit "sender_id")) w = (Ret u, w) →
  store_up w = true →
  sessions (receive E text (connect channel_name w).2).2 !! channel_name
  = Some (mkSession true
            [event_frame E (signal_event (strip m) u);
             event_frame E (receive_event (strip m) (Some (email u)))]).
Proof.
  intros Hloads Hmsg Hc Hget Hup.
  rewrite connect_world. cbn [fst snd].
  set (w1 := set_sessions _ _).
  assert (users w1 = users w) as Hu1.
  { unfold w1, join. by case_decide. }
  assert (store_up w1 = true) as Hup1.
  { unfold w1, join. by case_decide. }
  apply (User_objects_get_same_users _ w w1 u Hu1) in Hget.
  refine (proj1 (receive_live_member text d m u w1 channel_name
                   (mkSession true []) Hloads Hmsg Hc Hget Hup1 _ _ eq_refl)).
  - unfold w1.
    change (membersOf CHAT_GROUP (set_sessions ?x ?y))
      with (membersOf CHAT_GROUP y).
    rewrite membersOf_join, elem_of_union, elem_of_singleton. by right.
  - unfold w1. cbn [sessions set_sessions]. by rewrite lookup_insert_eq.
Qed.

End ChatDelivery.
(** ** The chat path on the sample world *)


(** [{"message": 5, "sender_id": 1}] raises. *)
Lemma non_text_message_raises_witness :
  receive Frames.env Frames.frame_number_message Sample.world
  = (Raise AttributeError, Sample.world).
Proof.
  apply (non_text_message_raises Frames.env Frames.frame_number_message
           {[ lit "message" := JInt 5; lit "sender_id" := JInt 1 ]}
           (JInt 5)).
  - reflexivity.
  - reflexivity.
  - intros s. discriminate.
Defined.

(** [{"message": "hi", "sender_id": "abc"}]: the key field rejects "abc". *)
Lemma lookup_error_propagates_witness :
  receive Frames.env Frames.frame_text_sender Sample.world
  = (Raise ValueError, Sample.world).
Proof.
  apply (lookup_error_propagates Frames.env Frames.frame_text_sender
           {[ lit "message" := JStr (lit "hi");
              lit "sender_id" := JStr (lit "abc") ]} (lit "hi")).
  - reflexivity.
  - reflexivity.
  - vm_compute. discriminate.
  - reflexivity.
  - discriminate.
Defined.

(** The frame [[]] raises and leaves the sample world as it was. *)
Lemma receive_raise_changes_nothing_witness :
  (receive Sample.env Sample.frame_list Sample.world).2 = Sample.world.
Proof.
  apply (receive_raise_changes_nothing Sample.env Sample.frame_list
           Sample.world AttributeError).
  reflexivity.
Defined.

(** In the sample world, [save_message] for user 1 returns the email of
    user 1 and appends the message. *)
Lemma save_message_reports_persistence_witness :
  ∃ u, email u = lit "alice@example.com"
       ∧ users Sample.world !! pk u = Some (lit "alice@example.com")
       ∧ users (save_message Sample.env (JInt 1) (lit "hi") Sample.world).2
         = users Sample.world
       ∧ messages (save_message Sample.env (JInt 1) (lit "hi")
                     Sample.world).2
         = messages Sample.world
           ++ [mkMessage (pk u) (lit "hi") (clock Sample.world)].
Proof.
  apply (save_message_reports_persistence Sample.env (JInt 1) (lit "hi")
           Sample.world (Some (lit "alice@example.com"))).
  vm_compute. reflexivity.
Defined.

(** A padded message is stored trimmed. *)
Lemma run_contents_trimmed_witness :
  contents_trimmed
    (run Frames.env
       [OpConnect Sample.chan_a; OpReceive Frames.frame_padded;
        OpReceive Sample.frame_blank; OpDisconnect Sample.chan_a 1000]
       Sample.world).
Proof.
  apply (run_contents_trimmed Frames.env).
  intros m Hm. exfalso. exact (proj1 (elem_of_nil m) Hm).
Defined.

Example frame_padded_stored :
  content <$> messages (receive Frames.env Frames.frame_padded Sample.world).2
  = [lit "hi there"].
Proof. reflexivity. Qed.

(** The two events for "hello" from user 1 are the same event. *)
Lemma duplicate_events_compared_witness :
  ∃ first second,
    sent (receive Sample.env Sample.frame_hello Sample.world).2
    = sent Sample.world ++ [(CHAT_GROUP, first); (CHAT_GROUP, second)]
    ∧ ev_type first = ev_type second
    ∧ ev_message first = ev_message second
    ∧ ev_sender first = email Sample.alice
    ∧ (email Sample.alice ≠ [] → second = first)
    ∧ (email Sample.alice = [] → ev_sender second = lit "Anonymous").
Proof.
  apply (duplicate_events_compared Sample.env Sample.frame_hello
           {[ lit "message" := JStr (lit "hello");
              lit "sender_id" := JInt 1 ]} (lit "hello")).
  - reflexivity.
  - reflexivity.
  - vm_compute. discriminate.
  - reflexivity.
  - reflexivity.
Defined.

(** [chan_b] is written "hello" twice. *)
Lemma receive_delivers_twice_witness :
  sessions (receive Sample.env Sample.frame_hello Sample.world).2
    !! Sample.chan_b
  = Some (mkSession true
            [event_frame Sample.env (signal_event (lit "hello") Sample.alice);
             event_frame Sample.env
               (receive_event (lit "hello") (Some (email Sample.alice)))])
  ∧ Sample.chan_b
    ∈ membersOf CHAT_GROUP
        (receive Sample.env Sample.frame_hello Sample.world).2.
Proof.
  apply (receive_delivers_twice Sample.env Sample.frame_hello
           {[ lit "message" := JStr (lit "hello");
              lit "sender_id" := JInt 1 ]} (lit "hello") Sample.alice
           Sample.world Sample.chan_b (mkSession true [])).
  - reflexivity.
  - reflexivity.
  - vm_compute. discriminate.
  - reflexivity.
  - reflexivity.
  - apply (bool_decide_unpack _). vm_compute. exact I.
  - reflexivity.
  - reflexivity.
Defined.

(** A third client connects and leaves: the room is as before. *)
Lemma connect_then_disconnect_witness :
  lit "specific.c"
  ∈ membersOf CHAT_GROUP (connect (lit "specific.c") Sample.world).2
  ∧ Sample.chan_a
    ∈ membersOf CHAT_GROUP
        (disconnect (lit "specific.c") 1000
           (connect (lit "specific.c") Sample.world).2).2.
Proof.
  destruct (connect_then_disconnect (lit "specific.c") 1000 Sample.world)
    as (_ & _ & _ & Hin & Hout & _).
  split.
  - apply Hin. by left.
  - apply Hout. split; [discriminate|].
    apply (bool_decide_unpack _). vm_compute. exact I.
Defined.

(** A third client connects and says "hello". *)
Lemma connected_client_hears_itself_witness :
  sessions (receive Sample.env Sample.frame_hello
              (connect (lit "specific.c") Sample.world).2).2
    !! lit "specific.c"
  = Some (mkSession true
            [event_frame Sample.env (signal_event (lit "hello") Sample.alice);
             event_frame Sample.env
               (receive_event (lit "hello") (Some (email Sample.alice)))]).
Proof.
  apply (connected_client_hears_itself Sample.env (lit "specific.c")
           Sample.frame_hello
           {[ lit "message" := JStr (lit "hello");
              lit "sender_id" := JInt 1 ]} (lit "hello") Sample.alice
           Sample.world).
  - reflexivity.
  - reflexivity.
  - vm_compute. discriminate.
  - reflexivity.
  - reflexivity.
Defined.

(** * [str(n)] and the OTP code *)

Lemma int_of_digits_snoc (ds : str) c :
  int_of_digits (ds ++ [c]) = (int_of_digits ds * 10 + (c - 48))%N.
Proof. unfold int_of_digits. by rewrite foldl_app. Qed.

(** What [digits] computes when the fuel covers the number. *)
Lemma digits_spec (fuel : nat) : ∀ (n : N) (acc : str),
  (n < 10 ^ N.of_nat fuel)%N →
  (0 < fuel)%nat →
  ∃ ds, digits fuel n acc = ds ++ acc
        ∧ int_of_digits ds = n
        ∧ Forall is_digit ds
        ∧ (0 < length ds)%nat
        ∧ (0 < n → 10 ^ N.of_nat (length ds - 1) ≤ n)%N
        ∧ (∀ c, head ds = Some c → (0 < n)%N → c ≠ 48%N).
Proof.
  induction fuel as [|fuel IH]; intros n acc Hn Hfuel; [lia|].
  cbn [digits].
  assert (n `mod` 10 < 10)%N as Hmod by (apply N.mod_lt; lia).
  pose proof (N.Div0.div_mod n 10) as Hdm.
  assert (fuel = O → n `div` 10 = 0)%N as Hfuel0.
  { intros ->. simpl in Hn. apply N.div_small. lia. }
  assert (n `div` 10 < 10 ^ N.of_nat fuel)%N as Hdiv.
  { apply N.Div0.div_lt_upper_bound.
    by rewrite Nat2N.inj_succ, N.pow_succ_r' in Hn. }
  revert Hmod Hdm Hfuel0 Hdiv.
  generalize (n `div` 10)%N (n `mod` 10)%N. intros q r Hmod Hdm Hfuel0 Hdiv.
  destruct (N.eqb_spec q 0) as [Hz|Hnz].
  - exists [(48 + r)%N].
    split; [done|]. split; [unfold int_of_digits; simpl; lia|].
    split; [constructor; [unfold is_digit; lia|constructor]|].
    split; [simpl; lia|]. split; [simpl; lia|].
    intros c [= <-] Hpos. lia.
  - assert (0 < fuel)%nat as Hfuel'.
    { destruct fuel; [|lia]. by destruct Hnz, Hfuel0. }
    destruct (IH q ((48 + r)%N :: acc) Hdiv Hfuel')
      as (ds & -> & Hval & Hdig & Hlen & Hlow & Hhead).
    exists (ds ++ [(48 + r)%N]).
    split; [by rewrite <- app_assoc|].
    split; [rewrite int_of_digits_snoc, Hval; lia|].
    split.
    { apply Forall_app. split; [done|].
      constructor; [unfold is_digit; lia|constructor]. }
    rewrite length_app. simpl.
    split; [lia|]. split.
    + intros _.
      replace (length ds + 1 - 1)%nat with (S (length ds - 1)) by lia.
      rewrite Nat2N.inj_succ, N.pow_succ_r'.
      assert (10 ^ N.of_nat (length ds - 1) ≤ q)%N by (apply Hlow; lia).
      lia.
    + intros c Hc _. apply Hhead; [|lia].
      destruct ds; [simpl in Hlen; lia|done].
Qed.

(** A string of [k] digits reads back as a number below [10^k]. *)
Lemma int_of_digits_bound (ds : str) :
  Forall is_digit ds → (int_of_digits ds < 10 ^ N.of_nat (length ds))%N.
Proof.
  induction ds as [|c ds IH] using rev_ind; intros Hdig.
  - simpl. unfold int_of_digits. simpl. lia.
  - apply Forall_app in Hdig as [Hds Hc]. inversion Hc as [|?? Hc' _]; subst.
    rewrite int_of_digits_snoc, length_app. simpl.
    replace (length ds + 1)%nat with (S (length ds)) by lia.
    rewrite Nat2N.inj_succ, N.pow_succ_r'.
    specialize (IH Hds). unfold is_digit in Hc'. lia.
Qed.

(** The fuel [str_of_int] gives covers the number. *)
Lemma str_of_int_fuel (m : N) : (m < 10 ^ N.of_nat (S (N.to_nat (N.log2 m))))%N.
Proof.
  rewrite Nat2N.inj_succ, N2Nat.id.
  destruct (N.eq_dec m 0%N) as [->|Hne]; [simpl; lia|].
  destruct (N.log2_spec m) as [_ Hup]; [lia|].
  eapply N.lt_le_trans; [exact Hup|].
  apply N.pow_le_mono_l. lia.
Qed.

(** [int(str(n)) = n] for a natural number, and [str(n)] is made of
    decimal digits with no leading zero. *)
Lemma str_of_int_spec (n : Z) :
  0 ≤ n →
  int_of_digits (str_of_int n) = Z.to_N n
  ∧ Forall is_digit (str_of_int n)
  ∧ (0 < length (str_of_int n))%nat
  ∧ (0 < n → (10 ^ N.of_nat (length (str_of_int n) - 1) ≤ Z.to_N n)%N)
  ∧ (∀ c, head (str_of_int n) = Some c → 0 < n → c ≠ 48%N).
Proof.
  intros Hn. unfold str_of_int.
  rewrite (proj2 (Z.ltb_ge n 0)) by done.
  rewrite Z.abs_eq by done.
  destruct (digits_spec (S (N.to_nat (N.log2 (Z.to_N n)))) (Z.to_N n) []
              (str_of_int_fuel _) ltac:(lia))
    as (ds & -> & Hval & Hdig & Hlen & Hlow & Hhead).
  rewrite app_nil_r. repeat split; try done.
  - intros Hpos. apply Hlow. lia.
  - intros c Hc Hpos. apply Hhead; [done|lia].
Qed.

(** * Accounts *)

Module AccountsFacts.
Import Accounts.

(** ** The OTP *)

(** X14: an OTP is valid up to and including five minutes after its
    creation and expired from the next microsecond on; once expired it
    stays expired. *)
Theorem otp_expiry_threshold otp :
  is_expired otp (created_at otp) = false
  ∧ is_expired otp (created_at otp + FIVE_MINUTES) = false
  ∧ is_expired otp (created_at otp + FIVE_MINUTES + 1) = true
  ∧ ∀ now now', (now ≤ now')%N →
                is_expired otp now = true → is_expired otp now' = true.
Proof.
  unfold is_expired, FIVE_MINUTES. repeat split.
  - apply N.ltb_ge. lia.
  - apply N.ltb_ge. lia.
  - apply N.ltb_lt. lia.
  - intros now now' Hle Hexp%N.ltb_lt. apply N.ltb_lt. lia.
Qed.

(** X15: whatever number in [100000, 999999] is drawn, the code is a
    string of exactly six decimal digits that does not start with ['0'],
    and it reads back as the number drawn. *)
Theorem generate_code_six_digits drawn :
  100000 ≤ drawn ≤ 999999 →
  length (generate_code drawn) = 6%nat
  ∧ Forall is_digit (generate_code drawn)
  ∧ (∀ c, head (generate_code drawn) = Some c → c ≠ 48%N)
  ∧ int_of_digits (generate_code drawn) = Z.to_N drawn.
Proof.
  intros Hrange. unfold generate_code.
  destruct (str_of_int_spec drawn ltac:(lia))
    as (Hval & Hdig & Hlen & Hlow & Hhead).
  pose proof (int_of_digits_bound _ Hdig) as Hup. rewrite Hval in Hup.
  specialize (Hlow ltac:(lia)).
  split; [|split; [done|split; [|done]]].
  - assert (N.of_nat (length (str_of_int drawn) - 1) < 6)%N as H1.
    { apply (N.pow_lt_mono_r_iff 10); [lia|].
      eapply N.le_lt_trans; [exact Hlow|]. simpl. lia. }
    assert (5 < N.of_nat (length (str_of_int drawn)))%N as H2.
    { apply (N.pow_lt_mono_r_iff 10); [lia|].
      eapply N.le_lt_trans; [|exact Hup]. simpl. lia. }
    lia.
  - intros c Hc. apply Hhead; [done|lia].
Qed.

Lemma generate_code_six_digits_witness :
  length (generate_code 482913) = 6%nat
  ∧ Forall is_digit (generate_code 482913)
  ∧ (∀ c, head (generate_code 482913) = Some c → c ≠ 48%N)
  ∧ int_of_digits (generate_code 482913) = Z.to_N 482913.
Proof. apply generate_code_six_digits. lia. Defined.

Example generate_code_sample : generate_code 482913 = lit "482913".
Proof. reflexivity. Qed.

Example str_of_int_samples :
  str_of_int 0 = lit "0" ∧ str_of_int 7 = lit "7"
  ∧ str_of_int 1000 = lit "1000" ∧ str_of_int (-42) = lit "-42".
Proof. repeat split. Qed.

(** ** [VerifyOTPView] *)

Global Instance newer_otp_first_trans : Transitive newer_otp_first.
Proof. intros a b c. unfold newer_otp_first. lia. Qed.

Global Instance newer_otp_first_total : Total newer_otp_first.
Proof. intros a b. unfold newer_otp_first. lia. Qed.

(** The OTP [latest_otp] picks is one of the user's OTPs with the code,
    and none of them is newer. *)
Lemma latest_otp_Some user_id c s o :
  latest_otp user_id c s = Some o →
  o ∈ otps s ∧ user o = user_id ∧ code o = c
  ∧ ∀ o', o' ∈ otps s → user o' = user_id → code o' = c →
          (created_at o' ≤ created_at o)%N.
Proof.
  unfold latest_otp.
  set (l := filter (λ o, user o = user_id ∧ code o = c) (otps s)).
  pose proof (StronglySorted_merge_sort newer_otp_first l) as Hsorted.
  pose proof (merge_sort_Permutation newer_otp_first l) as Hperm.
  destruct (merge_sort newer_otp_first l) as [|o0 rest]; [done|].
  simpl. intros [= ->].
  assert (o ∈ l) as Hin by (rewrite <- Hperm; apply list_elem_of_here).
  apply list_elem_of_filter in Hin as [[Hu Hc] Hin].
  split; [done|]. split; [done|]. split; [done|].
  intros o' Hin' Hu' Hc'.
  assert (o' ∈ o :: rest) as Hin''.
  { rewrite Hperm. apply list_elem_of_filter. by split. }
  apply StronglySorted_cons in Hsorted as [Hall _].
  apply elem_of_cons in Hin'' as [->|Hrest]; [done|].
  rewrite Forall_forall in Hall. by apply Hall.
Qed.

Lemma latest_otp_None user_id c s :
  latest_otp user_id c s = None ↔
  ∀ o, o ∈ otps s → ¬ (user o = user_id ∧ code o = c).
Proof.
  unfold latest_otp.
  set (l := filter (λ o, user o = user_id ∧ code o = c) (otps s)).
  pose proof (merge_sort_Permutation newer_otp_first l) as Hperm.
  split.
  - intros Hnone o Hin Hmatch.
    destruct (merge_sort newer_otp_first l) as [|o0 rest]; [|done].
    assert (o ∈ l) as Hl by (apply list_elem_of_filter; by split).
    rewrite <- Hperm in Hl. by apply elem_of_nil in Hl.
  - intros Hno.
    destruct (merge_sort newer_otp_first l) as [|o0 rest]; [done|].
    assert (o0 ∈ l) as Hl by (rewrite <- Hperm; apply list_elem_of_here).
    apply list_elem_of_filter in Hl as [Hmatch Hin]. by destruct (Hno o0 Hin).
Qed.

(** Every way [VerifyOTPView.post] can end. *)
Lemma VerifyOTPView_post_outcome is_valid request_data now s :
  (VerifyOTPView_post is_valid request_data now s).2 = s
  ∧ (∀ resp, (VerifyOTPView_post is_valid request_data now s).1
             = Returns resp → status resp ≠ 200)
  ∨ ∃ e c u otp,
      is_valid request_data = inr (e, c)
      ∧ User_objects_get e s = Returns u
      ∧ latest_otp (id u) c s = Some otp
      ∧ is_expired otp now = false
      ∧ VerifyOTPView_post is_valid request_data now s
        = (Returns verified_response,
           delete_otps (id u) (mark_verified (id u) s)).
Proof.
  unfold VerifyOTPView_post.
  destruct (is_valid request_data) as [errors|[e c]] eqn:Hvalid.
  { left. split; [done|]. by intros resp [= <-]. }
  destruct (User_objects_get e s) as [u|err] eqn:Hget.
  2:{ left. destruct err; (split; [done|]); by intros resp [= <-]. }
  destruct (latest_otp (id u) c s) as [otp|] eqn:Hotp.
  2:{ left. split; [done|]. by intros resp [= <-]. }
  destruct (is_expired otp now) eqn:Hexp.
  { left. split; [done|]. by intros resp [= <-]. }
  right. by exists e, c, u, otp.
Qed.

(** X16: a verification that does not answer 200 changes nothing: no user
    is marked, no OTP is deleted.  (An expired or wrong code can be tried
    again, and an expired OTP stays in the table.) *)
Theorem verify_failure_changes_nothing is_valid request_data now s :
  (∃ resp, (VerifyOTPView_post is_valid request_data now s).1 = Returns resp
           ∧ status resp = 200)
  ∨ (VerifyOTPView_post is_valid request_data now s).2 = s.
Proof.
  destruct (VerifyOTPView_post_outcome is_valid request_data now s)
    as [[Hs _]|(e & c & u & otp & _ & _ & _ & _ & ->)]; [by right|].
  left. by exists verified_response.
Qed.

(** X17: a 200 is only answered for a code that was issued and is still
    fresh: the request validated to an email and a code, exactly one user
    has that email, and that user has an OTP with that code created at
    most five minutes before. *)
Theorem verify_success_sound is_valid request_data now s resp :
  (VerifyOTPView_post is_valid request_data now s).1 = Returns resp →
  status resp = 200 →
  ∃ e c u otp,
    is_valid request_data = inr (e, c)
    ∧ filter (λ v, email v = e) (users s) = [u]
    ∧ otp ∈ otps s
    ∧ user otp = id u
    ∧ code otp = c
    ∧ (now ≤ created_at otp + FIVE_MINUTES)%N.
Proof.
  intros Hresp Hstatus.
  destruct (VerifyOTPView_post_outcome is_valid request_data now s)
    as [[_ Hno]|(e & c & u & otp & Hvalid & Hget & Hotp & Hexp & _)].
  { by destruct (Hno resp Hresp). }
  exists e, c, u, otp. split; [done|].
  apply latest_otp_Some in Hotp as (Hin & Hu & Hc & _).
  split.
  { unfold User_objects_get in Hget.
    destruct (filter (λ v, email v = e) (users s)) as [|v [|??]];
      try done. by injection Hget as ->. }
  repeat split; try done.
  unfold is_expired in Hexp. by apply N.ltb_ge in Hexp.
Qed.

Lemma VerifyOTPView_post_fresh is_valid request_data now s e c u otp :
  is_valid request_data = inr (e, c) →
  filter (λ v, email v = e) (users s) = [u] →
  otp ∈ otps s →
  user otp = id u →
  code otp = c →
  (now ≤ created_at otp + FIVE_MINUTES)%N →
  (VerifyOTPView_post is_valid request_data now s).1
  = Returns verified_response.
Proof.
  intros Hvalid Hone Hin Hu Hc Hfresh.
  unfold VerifyOTPView_post, User_objects_get. rewrite Hvalid, Hone.
  destruct (latest_otp (id u) c s) as [latest|] eqn:Hotp.
  2:{ rewrite latest_otp_None in Hotp. by destruct (Hotp otp Hin). }
  apply latest_otp_Some in Hotp as (_ & _ & _ & Hnewest).
  specialize (Hnewest otp Hin Hu Hc).
  unfold is_expired.
  rewrite (proj2 (N.ltb_ge _ _)); [done|]. lia.
Qed.

(** X18: the other way round: when the request validates to the email of
    exactly one user and a code, and that user has some OTP with that code
    created at most five minutes before, the answer is 200. *)
Theorem verify_accepts_fresh_code is_valid request_data now s e c u otp :
  is_valid request_data = inr (e, c) →
  filter (λ v, email v = e) (users s) = [u] →
  otp ∈ otps s →
  user otp = id u →
  code otp = c →
  (now ≤ created_at otp + FIVE_MINUTES)%N →
  (VerifyOTPView_post is_valid request_data now s).1
  = Returns verified_response.
Proof. apply VerifyOTPView_post_fresh. Qed.


Lemma mark_verified_ids user_id s :
  id <$> users (mark_verified user_id s) = id <$> users s.
Proof.
  unfold mark_verified. cbn [users]. rewrite <- list_fmap_compose.
  apply list_fmap_ext. intros i u _. simpl. by case_decide.
Qed.

Lemma mark_verified_emails user_id s :
  email <$> users (mark_verified user_id s) = email <$> users s.
Proof.
  unfold mark_verified. cbn [users]. rewrite <- list_fmap_compose.
  apply list_fmap_ext. intros i u _. simpl. by case_decide.
Qed.

Lemma filter_email_fmap (f : User → User) e (l : list User) :
  (∀ u, email (f u) = email u) →
  filter (λ v, email v = e) (f <$> l) = f <$> filter (λ v, email v = e) l.
Proof.
  intros Hf. induction l as [|u l IH]; [done|].
  rewrite fmap_cons, !filter_cons, Hf.
  case_decide; [rewrite fmap_cons|]; by rewrite IH.
Qed.

(** X19: what a 200 has done.  Every row of the verified user is marked
    verified and all of that user's OTPs are deleted, used or not; the
    other users' rows and OTPs are as they were, and no key or email has
    changed. *)
Theorem verify_success_effect is_valid request_data now s resp :
  (VerifyOTPView_post is_valid request_data now s).1 = Returns resp →
  status resp = 200 →
  ∃ u, u ∈ users s
    ∧ set_is_verified true u
      ∈ users (VerifyOTPView_post is_valid request_data now s).2
    ∧ (∀ v, v ∈ users (VerifyOTPView_post is_valid request_data now s).2 →
            id v = id u → is_verified v = true)
    ∧ (∀ v, v ∈ users s → id v ≠ id u →
            v ∈ users (VerifyOTPView_post is_valid request_data now s).2)
    ∧ id <$> users (VerifyOTPView_post is_valid request_data now s).2
      = id <$> users s
    ∧ email <$> users (VerifyOTPView_post is_valid request_data now s).2
      = email <$> users s
    ∧ (∀ o, o ∈ otps (VerifyOTPView_post is_valid request_data now s).2
            ↔ o ∈ otps s ∧ user o ≠ id u).
Proof.
  intros Hresp Hstatus.
  destruct (VerifyOTPView_post_outcome is_valid request_data now s)
    as [[_ Hno]|(e & c & u & otp & Hvalid & Hget & Hotp & Hexp & Hpost)].
  { by destruct (Hno resp Hresp). }
  rewrite Hpost. cbn [fst snd].
  assert (u ∈ users s) as Hin.
  { unfold User_objects_get in Hget.
    destruct (filter (λ v, email v = e) (users s)) as [|v [|??]] eqn:Hf;
      try done. injection Hget as ->.
    assert (u ∈ filter (λ v, email v = e) (users s)) as Hu
      by (rewrite Hf; apply list_elem_of_here).
    by apply list_elem_of_filter in Hu as [_ ?]. }
  exists u. split; [done|].
  change (users (delete_otps (id u) (mark_verified (id u) s)))
    with (users (mark_verified (id u) s)).
  split; [|split; [|split; [|split; [|split]]]].
  - unfold mark_verified. cbn [users]. apply list_elem_of_fmap.
    exists u. split; [|done]. by rewrite decide_True.
  - unfold mark_verified. cbn [users].
    intros v (v0 & -> & Hv0)%list_elem_of_fmap.
    case_decide as Hid; [done|]. intros Heq. by destruct Hid.
  - intros v Hv Hne. unfold mark_verified. cbn [users].
    apply list_elem_of_fmap. exists v. split; [|done].
    by rewrite decide_False.
  - apply mark_verified_ids.
  - apply mark_verified_emails.
  - intros o. unfold delete_otps, mark_verified. cbn [otps].
    rewrite list_elem_of_filter. naive_solver.
Qed.

(** X20: a code works once.  After a 200, the same request, whenever it is
    sent again, is answered 400 "Invalid OTP." and changes nothing. *)
Theorem verify_code_single_use is_valid request_data now now' s resp :
  (VerifyOTPView_post is_valid request_data now s).1 = Returns resp →
  status resp = 200 →
  VerifyOTPView_post is_valid request_data now'
    (VerifyOTPView_post is_valid request_data now s).2
  = (Returns invalid_otp_response,
     (VerifyOTPView_post is_valid request_data now s).2).
Proof.
  intros Hresp Hstatus.
  destruct (VerifyOTPView_post_outcome is_valid request_data now s)
    as [[_ Hno]|(e & c & u & otp & Hvalid & Hget & Hotp & Hexp & Hpost)].
  { by destruct (Hno resp Hresp). }
  rewrite Hpost. cbn [fst snd].
  set (s' := delete_otps (id u) (mark_verified (id u) s)).
  unfold VerifyOTPView_post. rewrite Hvalid.
  assert (User_objects_get e s' = Returns (set_is_verified true u)) as ->.
  { unfold User_objects_get in *. unfold s', delete_otps, mark_verified.
    cbn [users]. rewrite filter_email_fmap by (intros v; by case_decide).
    destruct (filter (λ v, email v = e) (users s)) as [|v [|??]];
      try done. injection Hget as ->. simpl. by rewrite decide_True. }
  assert (latest_otp (id (set_is_verified true u)) c s' = None) as ->; [|done].
  apply latest_otp_None. intros o Hin [Hu _].
  unfold s', delete_otps, mark_verified in Hin. cbn [otps] in Hin.
  apply list_elem_of_filter in Hin as [Hne _]. by destruct Hne.
Qed.


(** ** [RegisterView] *)

Lemma validate_email_Returns value s v :
  validate_email value s = Returns v →
  v = value ∧ filter (λ u, email u = value) (users s) = [].
Proof.
  unfold validate_email.
  destruct (filter (λ u, email u = value) (users s)); [|done].
  by intros [= <-].
Qed.

Lemma is_valid_inr F request_data s e r :
  is_valid F request_data s = Returns (inr (e, r)) →
  email_field F (users s) request_data = inr e
  ∧ other_fields F request_data = inr r
  ∧ filter (λ u, email u = e) (users s) = [].
Proof.
  unfold is_valid.
  destruct (email_field F (users s) request_data) as [detail|value].
  { by destruct (other_fields F request_data). }
  destruct (validate_email value s) as [v|err] eqn:Hv.
  - apply validate_email_Returns in Hv as [-> Hnone].
    destruct (other_fields F request_data); [done|].
    by intros [= <- <-].
  - destruct err; try done. by destruct (other_fields F request_data).
Qed.

(** The text of the mail has the code in it. *)
Lemma app_nest5 {A} (a b c d e x rest : list A) :
  a ++ b ++ c ++ d ++ e ++ x ++ rest = (a ++ b ++ c ++ d ++ e) ++ x ++ rest.
Proof. by rewrite <- !app_assoc. Qed.

Lemma otp_mail_text_code u otp_code :
  ∃ before after, otp_mail_text u otp_code = before ++ otp_code ++ after.
Proof. eexists _, _. unfold otp_mail_text. apply app_nest5. Qed.

(** Every way [RegisterView.post] can end. *)
Lemma RegisterView_post_outcome F make_password send_mail from
    request_data drawn now s :
  ((RegisterView_post F make_password send_mail from request_data drawn now
      s).2 = s
   ∧ ∀ resp,
       (RegisterView_post F make_password send_mail from request_data drawn
          now s).1 = Returns resp → status resp ≠ 201)
  ∨ ∃ e r,
      is_valid F request_data s = Returns (inr (e, r))
      ∧ filter (λ u, username u = e ∨ email u = e) (users s) = []
      ∧ RegisterView_post F make_password send_mail from request_data drawn
          now s
        = (Returns (registered_response (next_user_id s)),
           mkState
             (users s ++ [registered_user make_password e r s])
             (otps s ++ [mkOTP (next_user_id s) (generate_code drawn) now])
             (next_user_id s + 1)
             (mails s
              ++ [mkMail (lit "Your OTP Verification Code")
                    (otp_mail_text (registered_user make_password e r s)
                       (generate_code drawn))
                    from [e]])).
Proof.
  unfold RegisterView_post.
  destruct (is_valid F request_data s) as [[errors|[e r]]|err] eqn:Hvalid.
  - left. split; [done|]. by intros resp [= <-].
  - unfold UserRegistrationSerializer_create, User_save_new. cbn [username email].
    destruct (filter (λ u, username u = e ∨ email u = e) (users s)) eqn:Hf.
    + right. exists e, r. split; [done|]. split; [done|].
      by destruct (send_mail _).
    + left. split; [done|]. intros resp. discriminate.
  - left. split; [done|]. intros resp. discriminate.
Qed.

(** X21: the mail backend cannot block a registration.  Whether
    [send_mail] delivers or raises, the answer and the stored user and OTP
    are the same. *)
Theorem register_mail_failure_ignored F make_password send_mail send_mail'
    from request_data drawn now s :
  RegisterView_post F make_password send_mail from request_data drawn now s
  = RegisterView_post F make_password send_mail' from request_data drawn now
      s.
Proof.
  destruct (RegisterView_post_outcome F make_password send_mail from
              request_data drawn now s)
    as [[Hs Hno]|(e & r & Hvalid & Hfree & ->)].
  - unfold RegisterView_post in *.
    destruct (is_valid F request_data s) as [[errors|[e r]]|err]; try done.
    destruct (UserRegistrationSerializer_create make_password e r s)
      as [[u|err] s1]; [|done].
    by destruct (send_mail _), (send_mail' _).
  - destruct (RegisterView_post_outcome F make_password send_mail' from
                request_data drawn now s)
      as [[Hs Hno]|(e' & r' & Hvalid' & Hfree' & ->)].
    + exfalso. unfold RegisterView_post in Hno.
      rewrite Hvalid in Hno.
      unfold UserRegistrationSerializer_create, User_save_new in Hno.
      cbn [username email] in Hno. rewrite Hfree in Hno.
      destruct (send_mail' _); by eapply Hno.
    + rewrite Hvalid in Hvalid'. by injection Hvalid' as <- <-.
Qed.

(** X22: a registration that does not answer 201 changes nothing: no user,
    no OTP, no mail. *)
Theorem register_failure_changes_nothing F make_password send_mail from
    request_data drawn now s :
  (∃ resp,
     (RegisterView_post F make_password send_mail from request_data drawn now
        s).1 = Returns resp
     ∧ status resp = 201)
  ∨ (RegisterView_post F make_password send_mail from request_data drawn now
       s).2 = s.
Proof.
  destruct (RegisterView_post_outcome F make_password send_mail from
              request_data drawn now s)
    as [[Hs _]|(e & r & _ & _ & ->)]; [by right|].
  left. by eexists.
Qed.

(** X23: what a 201 has done.  One user is appended: it has the key the
    answer names, the validated email as email and as username, the hashed
    password, and it is not verified; no other user had that email.  One
    OTP is appended for that user, with the generated code, created now.
    One mail was handed to [send_mail]: to that email only, with the code
    in its text. *)
Theorem register_success_effect F make_password send_mail from request_data
    drawn now s resp :
  (RegisterView_post F make_password send_mail from request_data drawn now
     s).1 = Returns resp →
  status resp = 201 →
  ∃ e r u otp mail,
    is_valid F request_data s = Returns (inr (e, r))
    ∧ (∀ v, v ∈ users s → email v ≠ e ∧ username v ≠ e)
    ∧ resp = registered_response (id u)
    ∧ id u = next_user_id s
    ∧ email u = e ∧ username u = e
    ∧ password u = make_password (reg_password r)
    ∧ is_verified u = false
    ∧ otp = mkOTP (id u) (generate_code drawn) now
    ∧ recipient_list mail = [e]
    ∧ (∃ before after,
         message mail = before ++ generate_code drawn ++ after)
    ∧ users (RegisterView_post F make_password send_mail from request_data
               drawn now s).2 = users s ++ [u]
    ∧ otps (RegisterView_post F make_password send_mail from request_data
              drawn now s).2 = otps s ++ [otp]
    ∧ mails (RegisterView_post F make_password send_mail from request_data
               drawn now s).2 = mails s ++ [mail]
    ∧ next_user_id
        (RegisterView_post F make_password send_mail from request_data
           drawn now s).2 = next_user_id s + 1.
Proof.
  intros Hresp Hstatus.
  destruct (RegisterView_post_outcome F make_password send_mail from
              request_data drawn now s)
    as [[_ Hno]|(e & r & Hvalid & Hfree & Hpost)].
  { by destruct (Hno resp Hresp). }
  rewrite Hpost in Hresp |- *. cbn [fst snd] in *.
  injection Hresp as <-.
  exists e, r, (registered_user make_password e r s),
    (mkOTP (next_user_id s) (generate_code drawn) now),
    (mkMail (lit "Your OTP Verification Code")
       (otp_mail_text (registered_user make_password e r s)
          (generate_code drawn))
       from [e]).
  split; [done|]. split.
  { intros v Hv. split; intros Heq;
      (assert (v ∈ filter (λ u, username u = e ∨ email u = e) (users s)) as Hin
         by (apply list_elem_of_filter; split; [by auto|done]));
      rewrite Hfree in Hin; by apply elem_of_nil in Hin. }
  do 7 (split; [reflexivity|]).
  split; [reflexivity|]. split; [|by repeat split].
  cbn [message].
  exact (otp_mail_text_code (registered_user make_password e r s)
           (generate_code drawn)).
Qed.



(** ** The tables stay well formed *)

Lemma filter_nil_forall {A} (P : A → Prop) `{∀ x, Decision (P x)} (l : list A) :
  filter P l = [] → ∀ x, x ∈ l → ¬ P x.
Proof.
  intros Hf x Hin HP.
  assert (x ∈ filter P l) as Hx by (by apply list_elem_of_filter).
  rewrite Hf in Hx. by apply elem_of_nil in Hx.
Qed.

Lemma filter_nil_intro {A} (P : A → Prop) `{∀ x, Decision (P x)}
    (l : list A) :
  (∀ x, x ∈ l → ¬ P x) → filter P l = [].
Proof.
  induction l as [|x l IH]; intros Hno; [done|].
  rewrite filter_cons, decide_False by (apply Hno, list_elem_of_here).
  apply IH. intros y Hy. apply Hno. by apply list_elem_of_further.
Qed.

Lemma register_well_formed F make_password send_mail from request_data
    drawn now s :
  well_formed s →
  well_formed
    (RegisterView_post F make_password send_mail from request_data drawn now
       s).2.
Proof.
  intros (Hids & Hemails & Hbelow & Hotps).
  destruct (RegisterView_post_outcome F make_password send_mail from
              request_data drawn now s)
    as [[-> _]|(e & r & Hvalid & Hfree & ->)]; [done|].
  cbn [fst snd]. pose proof (filter_nil_forall _ _ Hfree) as Hnone.
  unfold well_formed. cbn [users otps next_user_id].
  rewrite !fmap_app. simpl.
  split; [|split; [|split]].
  - apply NoDup_app. split; [done|]. split; [|apply NoDup_singleton].
    intros i (v & -> & Hv)%list_elem_of_fmap Heq%list_elem_of_singleton.
    specialize (Hbelow v Hv). lia.
  - apply NoDup_app. split; [done|]. split; [|apply NoDup_singleton].
    intros i (v & -> & Hv)%list_elem_of_fmap Heq%list_elem_of_singleton.
    apply (Hnone v Hv). by right.
  - intros v [Hv| ->%list_elem_of_singleton]%elem_of_app.
    + specialize (Hbelow v Hv). lia.
    + simpl. lia.
  - intros o [Ho| ->%list_elem_of_singleton]%elem_of_app.
    + destruct (Hotps o Ho) as (v & Hv & Hid).
      exists v. split; [|done]. apply elem_of_app. by left.
    + exists (registered_user make_password e r s).
      split; [|done]. apply elem_of_app. right. apply list_elem_of_here.
Qed.

Lemma verify_well_formed is_valid request_data now s :
  well_formed s →
  well_formed (VerifyOTPView_post is_valid request_data now s).2.
Proof.
  intros (Hids & Hemails & Hbelow & Hotps).
  destruct (VerifyOTPView_post_outcome is_valid request_data now s)
    as [[-> _]|(e & c & u & otp & _ & _ & _ & _ & ->)]; [done|].
  cbn [fst snd]. unfold well_formed.
  change (users (delete_otps (id u) (mark_verified (id u) s)))
    with (users (mark_verified (id u) s)).
  rewrite mark_verified_ids, mark_verified_emails.
  split; [done|]. split; [done|]. split.
  - unfold mark_verified. cbn [users next_user_id delete_otps].
    intros v (v0 & -> & Hv0)%list_elem_of_fmap.
    specialize (Hbelow v0 Hv0). by case_decide.
  - unfold delete_otps, mark_verified. cbn [otps users].
    intros o [_ Ho]%list_elem_of_filter.
    destruct (Hotps o Ho) as (v & Hv & Hid).
    eexists. split; [apply list_elem_of_fmap; by exists v|].
    by case_decide.
Qed.

(** X25: registrations and verifications keep the tables well formed: the
    keys and the emails of the users stay unique, every key stays below the
    next key to be given, and every OTP belongs to a user of the table. *)
Theorem accounts_keep_well_formed F make_password send_mail from is_valid
    request_data request_data' drawn now s :
  well_formed s →
  well_formed
    (RegisterView_post F make_password send_mail from request_data drawn now
       s).2
  ∧ well_formed (VerifyOTPView_post is_valid request_data' now s).2.
Proof.
  intros Hwf. split; [by apply register_well_formed|by apply verify_well_formed].
Qed.

(** ** Registration, then verification, then login *)

(** X26: the code that was mailed verifies the account.  After a
    registration answered 201, the new user is not among the verified
    users; a verification request for the registered email and the
    generated code, sent at most five minutes after, is answered 200, and
    then the new user is among the verified users. *)
Theorem register_then_verify F make_password send_mail from request_data
    drawn now s e r is_valid' request_data' now' :
  is_valid F request_data s = Returns (inr (e, r)) →
  (RegisterView_post F make_password send_mail from request_data drawn now
     s).1 = Returns (registered_response (next_user_id s)) →
  is_valid' request_data' = inr (e, generate_code drawn) →
  (now' ≤ now + FIVE_MINUTES)%N →
  (∀ v, v ∈ VerifiedUsersView_get_queryset
              (RegisterView_post F make_password send_mail from request_data
                 drawn now s).2 → email v ≠ e)
  ∧ (VerifyOTPView_post is_valid' request_data' now'
       (RegisterView_post F make_password send_mail from request_data drawn
          now s).2).1 = Returns verified_response
  ∧ set_is_verified true (registered_user make_password e r s)
    ∈ VerifiedUsersView_get_queryset
        (VerifyOTPView_post is_valid' request_data' now'
           (RegisterView_post F make_password send_mail from request_data
              drawn now s).2).2.
Proof.
  intros Hvalid Hresp Hvalid' Hnow.
  destruct (RegisterView_post_outcome F make_password send_mail from
              request_data drawn now s)
    as [[_ Hno]|(e0 & r0 & Hvalid0 & Hfree & Hpost)].
  { by destruct (Hno _ Hresp). }
  rewrite Hvalid in Hvalid0. injection Hvalid0 as <- <-.
  rewrite Hpost. cbn [fst snd]. clear Hpost Hresp.
  set (u := registered_user make_password e r s).
  set (s1 := mkState _ _ _ _).
  pose proof (filter_nil_forall _ _ Hfree) as Hnone.
  assert (filter (λ v, email v = e) (users s1) = [u]) as Hone.
  { unfold s1. cbn [users]. rewrite filter_app.
    rewrite (filter_nil_intro _ (users s)).
    - by rewrite filter_cons, decide_True.
    - intros v Hv Hemail. apply (Hnone v Hv). by right. }
  assert ((VerifyOTPView_post is_valid' request_data' now' s1).1
          = Returns verified_response) as Hok.
  { apply (VerifyOTPView_post_fresh is_valid' request_data' now' s1 e
             (generate_code drawn) u
             (mkOTP (next_user_id s) (generate_code drawn) now));
      try done.
    unfold s1. cbn [otps]. apply elem_of_app. right. apply list_elem_of_here. }
  split; [|split; [done|]].
  - unfold VerifiedUsersView_get_queryset, s1. cbn [users].
    intros v [Hver Hv]%list_elem_of_filter Hemail.
    apply elem_of_app in Hv as [Hv| ->%list_elem_of_singleton].
    + apply (Hnone v Hv). by right.
    + done.
  - destruct (VerifyOTPView_post_outcome is_valid' request_data' now' s1)
      as [[_ Hno]|(e' & c' & u' & otp & Hv' & Hget & _ & _ & Hpost)].
    { by destruct (Hno _ Hok). }
    rewrite Hvalid' in Hv'. injection Hv' as <- <-.
    unfold User_objects_get in Hget. rewrite Hone in Hget.
    injection Hget as <-.
    rewrite Hpost. cbn [fst snd].
    unfold VerifiedUsersView_get_queryset, delete_otps, mark_verified.
    cbn [users]. apply list_elem_of_filter. split; [done|].
    apply list_elem_of_fmap. exists u. split.
    + by rewrite decide_True.
    + unfold s1. cbn [users]. apply elem_of_app. right.
      apply list_elem_of_here.
Qed.

(** ** The login gate *)

(** The answer of the gate to an account that is not verified. *)
Lemma gate_blocks_unverified super_validate attrs s v token_data :
  super_validate s attrs = Returns (v, token_data) →
  is_verified v = false →
  CustomTokenObtainPairSerializer_validate super_validate attrs s
  = Raises (ValidationError not_verified_detail).
Proof.
  intros Hsuper Hv. unfold CustomTokenObtainPairSerializer_validate.
  by rewrite Hsuper, Hv.
Qed.

(** X27: a registered user cannot log in before verifying.  After a
    registration answered 201, whatever the credentials, if they
    authenticate a user of the table with the registered email, the login
    serializer raises "Account not verified..." and returns no token. *)
Theorem registered_user_cannot_log_in F make_password send_mail from
    request_data drawn now s e r super_validate attrs v token_data :
  is_valid F request_data s = Returns (inr (e, r)) →
  (RegisterView_post F make_password send_mail from request_data drawn now
     s).1 = Returns (registered_response (next_user_id s)) →
  super_validate
    (RegisterView_post F make_password send_mail from request_data drawn now
       s).2 attrs = Returns (v, token_data) →
  v ∈ users (RegisterView_post F make_password send_mail from request_data
               drawn now s).2 →
  email v = e →
  CustomTokenObtainPairSerializer_validate super_validate attrs
    (RegisterView_post F make_password send_mail from request_data drawn now
       s).2
  = Raises (ValidationError not_verified_detail).
Proof.
  intros Hvalid Hresp.
  destruct (RegisterView_post_outcome F make_password send_mail from
              request_data drawn now s)
    as [[_ Hno]|(e0 & r0 & Hvalid0 & Hfree & Hpost)].
  { by destruct (Hno _ Hresp). }
  rewrite Hvalid in Hvalid0. injection Hvalid0 as <- <-.
  rewrite Hpost. cbn [fst snd users]. intros Hsuper Hv Hemail.
  apply (gate_blocks_unverified _ _ _ v token_data Hsuper).
  pose proof (filter_nil_forall _ _ Hfree) as Hnone.
  apply elem_of_app in Hv as [Hv| ->%list_elem_of_singleton]; [|done].
  destruct (Hnone v Hv). by right.
Qed.

(** X28: a verified user passes the gate.  After a verification answered
    200 for an email, if the credentials authenticate a user of the table
    with that email, the login serializer returns the token data with the
    user's id, email and name added under ['user']. *)
Theorem verified_user_passes_login_gate is_valid request_data now s e c
    super_validate attrs v token_data :
  is_valid request_data = inr (e, c) →
  (VerifyOTPView_post is_valid request_data now s).1
  = Returns verified_response →
  super_validate (VerifyOTPView_post is_valid request_data now s).2 attrs
  = Returns (v, token_data) →
  v ∈ users (VerifyOTPView_post is_valid request_data now s).2 →
  email v = e →
  CustomTokenObtainPairSerializer_validate super_validate attrs
    (VerifyOTPView_post is_valid request_data now s).2
  = Returns
      (<[lit "user" :=
           JDict {[ lit "id" := JInt (id v); lit "email" := JStr e;
                    lit "name" := JStr (name v) ]}]> token_data).
Proof.
  intros Hvalid Hresp.
  destruct (VerifyOTPView_post_outcome is_valid request_data now s)
    as [[_ Hno]|(e' & c' & u & otp & Hv' & Hget & _ & _ & Hpost)].
  { by destruct (Hno _ Hresp). }
  rewrite Hvalid in Hv'. injection Hv' as <- <-.
  rewrite Hpost. cbn [fst snd]. intros Hsuper Hv Hemail.
  unfold CustomTokenObtainPairSerializer_validate. rewrite Hsuper.
  assert (is_verified v = true) as ->; [|by rewrite Hemail].
  unfold delete_otps, mark_verified in Hv. cbn [users] in Hv.
  apply list_elem_of_fmap in Hv as (v0 & -> & Hv0).
  assert (v0 ∈ filter (λ w, email w = e) (users s)) as Hf.
  { apply list_elem_of_filter. split; [|done].
    revert Hemail. by case_decide. }
  unfold User_objects_get in Hget.
  destruct (filter (λ w, email w = e) (users s)) as [|w [|??]]; try done.
  injection Hget as ->. apply list_elem_of_singleton in Hf as ->.
  by rewrite decide_True.
Qed.


(** ** The accounts on the sample site *)

Example sample_registration :
  RegisterView_post AccountsSample.fields AccountsSample.make_password
    AccountsSample.send_mail (lit "noreply@example.com")
    AccountsSample.bob_registration 482913 1000 AccountsSample.empty
  = (Returns (registered_response 1),
     mkState
       [mkUser 1 AccountsSample.bob_email (lit "hashed$ssapterc3s")
          AccountsSample.bob_email (lit "Bob") [] None None None false]
       [mkOTP 1 (lit "482913") 1000]
       2
       [mkMail (lit "Your OTP Verification Code")
          (lit "Hello Bob," ++ [10; 10]%N ++ lit "Your OTP code is: 482913"
             ++ [10%N] ++ lit "This code is valid for 5 minutes."
             ++ [10; 10]%N
             ++ lit "If you did not request this, please ignore this email.")
          (lit "noreply@example.com") [AccountsSample.bob_email]]).
Proof. reflexivity. Qed.

Example sample_verification :
  VerifyOTPView_post AccountsSample.otp_is_valid
    (AccountsSample.bob_verification (lit "482913")) 60001000
    AccountsSample.after_registration
  = (Returns verified_response,
     mkState
       [mkUser 1 AccountsSample.bob_email (lit "hashed$ssapterc3s")
          AccountsSample.bob_email (lit "Bob") [] None None None true]
       [] 2 (mails AccountsSample.after_registration)).
Proof. reflexivity. Qed.

(** Six minutes after the registration the code has expired. *)
Example sample_verification_late :
  VerifyOTPView_post AccountsSample.otp_is_valid
    (AccountsSample.bob_verification (lit "482913")) 360001000
    AccountsSample.after_registration
  = (Returns
       (mkResponse (Error (lit "OTP has expired. Please request a new one."))
          400),
     AccountsSample.after_registration).
Proof. reflexivity. Qed.

Lemma verify_success_sound_witness :
  ∃ e c u otp,
    AccountsSample.otp_is_valid
      (AccountsSample.bob_verification (lit "482913")) = inr (e, c)
    ∧ filter (λ v, email v = e) (users AccountsSample.after_registration)
      = [u]
    ∧ otp ∈ otps AccountsSample.after_registration
    ∧ user otp = id u
    ∧ code otp = c
    ∧ (60001000 ≤ created_at otp + FIVE_MINUTES)%N.
Proof.
  apply (verify_success_sound AccountsSample.otp_is_valid
           (AccountsSample.bob_verification (lit "482913")) 60001000
           AccountsSample.after_registration verified_response).
  - reflexivity.
  - reflexivity.
Defined.

Lemma verify_accepts_fresh_code_witness :
  (VerifyOTPView_post AccountsSample.otp_is_valid
     (AccountsSample.bob_verification (lit "482913")) 60001000
     AccountsSample.after_registration).1
  = Returns verified_response.
Proof.
  apply (verify_accepts_fresh_code AccountsSample.otp_is_valid
           (AccountsSample.bob_verification (lit "482913")) 60001000
           AccountsSample.after_registration AccountsSample.bob_email
           (lit "482913")
           (mkUser 1 AccountsSample.bob_email (lit "hashed$ssapterc3s")
              AccountsSample.bob_email (lit "Bob") [] None None None false)
           (mkOTP 1 (lit "482913") 1000)).
  - reflexivity.
  - reflexivity.
  - apply list_elem_of_here.
  - reflexivity.
  - reflexivity.
  - vm_compute. discriminate.
Defined.

Lemma verify_success_effect_witness :
  ∃ u, u ∈ users AccountsSample.after_registration
    ∧ set_is_verified true u ∈ users AccountsSample.after_verification
    ∧ (∀ v, v ∈ users AccountsSample.after_verification →
            id v = id u → is_verified v = true)
    ∧ (∀ v, v ∈ users AccountsSample.after_registration → id v ≠ id u →
            v ∈ users AccountsSample.after_verification)
    ∧ id <$> users AccountsSample.after_verification
      = id <$> users AccountsSample.after_registration
    ∧ email <$> users AccountsSample.after_verification
      = email <$> users AccountsSample.after_registration
    ∧ (∀ o, o ∈ otps AccountsSample.after_verification
            ↔ o ∈ otps AccountsSample.after_registration ∧ user o ≠ id u).
Proof.
  apply (verify_success_effect AccountsSample.otp_is_valid
           (AccountsSample.bob_verification (lit "482913")) 60001000
           AccountsSample.after_registration verified_response).
  - reflexivity.
  - reflexivity.
Defined.

Lemma verify_code_single_use_witness :
  VerifyOTPView_post AccountsSample.otp_is_valid
    (AccountsSample.bob_verification (lit "482913")) 60002000
    AccountsSample.after_verification
  = (Returns invalid_otp_response, AccountsSample.after_verification).
Proof.
  apply (verify_code_single_use AccountsSample.otp_is_valid
           (AccountsSample.bob_verification (lit "482913")) 60001000 60002000
           AccountsSample.after_registration verified_response).
  - reflexivity.
  - reflexivity.
Defined.

Lemma register_success_effect_witness :
  ∃ e r u otp mail,
    is_valid AccountsSample.fields AccountsSample.bob_registration
      AccountsSample.empty = Returns (inr (e, r))
    ∧ (∀ v, v ∈ users AccountsSample.empty → email v ≠ e ∧ username v ≠ e)
    ∧ registered_response 1 = registered_response (id u)
    ∧ id u = next_user_id AccountsSample.empty
    ∧ email u = e ∧ username u = e
    ∧ password u = AccountsSample.make_password (reg_password r)
    ∧ is_verified u = false
    ∧ otp = mkOTP (id u) (generate_code 482913) 1000
    ∧ recipient_list mail = [e]
    ∧ (∃ before after,
         message mail = before ++ generate_code 482913 ++ after)
    ∧ users AccountsSample.after_registration
      = users AccountsSample.empty ++ [u]
    ∧ otps AccountsSample.after_registration
      = otps AccountsSample.empty ++ [otp]
    ∧ mails AccountsSample.after_registration
      = mails AccountsSample.empty ++ [mail]
    ∧ next_user_id AccountsSample.after_registration
      = next_user_id AccountsSample.empty + 1.
Proof.
  apply (register_success_effect AccountsSample.fields
           AccountsSample.make_password AccountsSample.send_mail
           (lit "noreply@example.com") AccountsSample.bob_registration
           482913 1000 AccountsSample.empty (registered_response 1)).
  - reflexivity.
  - reflexivity.
Defined.


Lemma empty_well_formed : well_formed AccountsSample.empty.
Proof.
  unfold well_formed, AccountsSample.empty. cbn [users otps next_user_id].
  split; [apply NoDup_nil_2|]. split; [apply NoDup_nil_2|].
  split; intros x Hx; exfalso; exact (proj1 (elem_of_nil x) Hx).
Defined.

Lemma accounts_keep_well_formed_witness :
  well_formed AccountsSample.after_registration
  ∧ well_formed
      (VerifyOTPView_post AccountsSample.otp_is_valid
         (AccountsSample.bob_verification (lit "482913")) 1000
         AccountsSample.empty).2.
Proof.
  apply (accounts_keep_well_formed AccountsSample.fields
           AccountsSample.make_password AccountsSample.send_mail
           (lit "noreply@example.com") AccountsSample.otp_is_valid
           AccountsSample.bob_registration
           (AccountsSample.bob_verification (lit "482913")) 482913 1000
           AccountsSample.empty).
  apply empty_well_formed.
Defined.


(** Bob registers, verifies a minute later, and is then listed. *)
Lemma register_then_verify_witness :
  (∀ v, v ∈ VerifiedUsersView_get_queryset AccountsSample.after_registration →
        email v ≠ AccountsSample.bob_email)
  ∧ (VerifyOTPView_post AccountsSample.otp_is_valid
       (AccountsSample.bob_verification (lit "482913")) 60001000
       AccountsSample.after_registration).1 = Returns verified_response
  ∧ mkUser 1 AccountsSample.bob_email (lit "hashed$ssapterc3s")
      AccountsSample.bob_email (lit "Bob") [] None None None true
    ∈ VerifiedUsersView_get_queryset AccountsSample.after_verification.
Proof.
  apply (register_then_verify AccountsSample.fields
           AccountsSample.make_password AccountsSample.send_mail
           (lit "noreply@example.com") AccountsSample.bob_registration
           482913 1000 AccountsSample.empty AccountsSample.bob_email
           (mkRegistration (Some (lit "Bob")) None None None None
              (lit "s3cretpass"))
           AccountsSample.otp_is_valid
           (AccountsSample.bob_verification (lit "482913")) 60001000).
  - reflexivity.
  - reflexivity.
  - reflexivity.
  - vm_compute. discriminate.
Defined.

(** Bob tries to log in right after registering. *)
Lemma registered_user_cannot_log_in_witness :
  CustomTokenObtainPairSerializer_validate AccountsSample.super_validate
    AccountsSample.bob_credentials AccountsSample.after_registration
  = Raises (ValidationError not_verified_detail).
Proof.
  apply (registered_user_cannot_log_in AccountsSample.fields
           AccountsSample.make_password AccountsSample.send_mail
           (lit "noreply@example.com") AccountsSample.bob_registration
           482913 1000 AccountsSample.empty AccountsSample.bob_email
           (mkRegistration (Some (lit "Bob")) None None None None
              (lit "s3cretpass"))
           AccountsSample.super_validate AccountsSample.bob_credentials
           (mkUser 1 AccountsSample.bob_email (lit "hashed$ssapterc3s")
              AccountsSample.bob_email (lit "Bob") [] None None None false)
           {[ lit "refresh" := JStr (lit "r-token");
              lit "access" := JStr (lit "a-token") ]}).
  - reflexivity.
  - reflexivity.
  - reflexivity.
  - apply list_elem_of_here.
  - reflexivity.
Defined.

(** Bob logs in after verifying. *)
Lemma verified_user_passes_login_gate_witness :
  CustomTokenObtainPairSerializer_validate AccountsSample.super_validate
    AccountsSample.bob_credentials AccountsSample.after_verification
  = Returns
      (<[lit "user" :=
           JDict {[ lit "id" := JInt 1;
                    lit "email" := JStr AccountsSample.bob_email;
                    lit "name" := JStr (lit "Bob") ]}]>
         {[ lit "refresh" := JStr (lit "r-token");
            lit "access" := JStr (lit "a-token") ]}).
Proof.
  apply (verified_user_passes_login_gate AccountsSample.otp_is_valid
           (AccountsSample.bob_verification (lit "482913")) 60001000
           AccountsSample.after_registration AccountsSample.bob_email
           (lit "482913") AccountsSample.super_validate
           AccountsSample.bob_credentials
           (mkUser 1 AccountsSample.bob_email (lit "hashed$ssapterc3s")
              AccountsSample.bob_email (lit "Bob") [] None None None true)).
  - reflexivity.
  - reflexivity.
  - reflexivity.
  - apply list_elem_of_here.
  - reflexivity.
Defined.

(** The mail backend is down: Bob is registered all the same. *)
Example sample_registration_mail_down :
  RegisterView_post AccountsSample.fields AccountsSample.make_password
    AccountsSample.send_mail_down (lit "noreply@example.com")
    AccountsSample.bob_registration 482913 1000 AccountsSample.empty
  = (Returns (registered_response 1), AccountsSample.after_registration).
Proof. reflexivity. Qed.


(** ** [NearbyUsersView] *)





Example nearby_sample :
  NearbyUsersView_get AccountsSample.flat NearbySample.ann (Some (lit "5"))
    NearbySample.site
  = mkResponse (Listed [NearbySample.ben]) 200.
Proof. reflexivity. Qed.

(** A requester without coordinates is answered 400. *)
Example nearby_sample_no_location :
  status (NearbyUsersView_get AccountsSample.flat NearbySample.eve None
            NearbySample.site) = 400.
Proof. reflexivity. Qed.

End AccountsFacts.
